(** * Airplane trajectories: ingestion of flight snapshots and distance pass

    A shallow embedding of the two batch jobs of the repository,
    [Airplanes_ingest_flight_snapshots.py] and
    [Airplanes_compute_flight_snapshots.py], and the properties that the
    design document states about them.

    - Python values that reach the code come from [json()] and from
      [sqlite3] rows; they are dynamically typed and are modelled by the
      inductive types [json] and [valor], with Python's behaviour on every
      constructor (truth value, indexing, iteration, membership) written
      out, exceptions included.
    - Exceptions are the [Err] results of the error monad [res].
    - The SQLite store is explicit state: tables are lists of rows in
      rowid order, an [AUTOINCREMENT] key has its [sqlite_sequence]
      counter.  The SQL statements of the source are functions on that
      state.
    - The outside world of [main] (argv, the credential file, the two HTTP
      exchanges, the clock) is a record [entorno]; what [main] does is
      recorded as a list of [evento].
    - The arithmetic of the distance pass is an interface with two
      instances: IEEE doubles, with the C library's sine, cosine and arc
      cosine as parameters, and exact real numbers.

    The file has two parts: the model, then the properties and their
    proofs. *)

From Stdlib Require Import ZArith List String Ascii Bool Lia.
From Stdlib Require Import Floats.
From Stdlib Require Import Reals Lra.
Import ListNotations.

#[local] Set Warnings "-register-all".
Local Open Scope string_scope.
Local Open Scope Z_scope.
Local Open Scope list_scope.

(** ** Exceptions and the error monad *)

Inductive excepcion : Type :=
| KeyError
| IndexError
| TypeError
| ValueError            (* "math domain error" *)
| OverflowError         (* Python int too large for SQLite INTEGER *)
| ProgrammingError      (* sqlite3: parameter of unsupported type *)
| OperationalError      (* sqlite3: no such table *)
| JSONDecodeError
| ConnectionError.

Inductive res (A : Type) : Type :=
| Ok (a : A)
| Err (e : excepcion).
Arguments Ok {A} a.
Arguments Err {A} e.

Definition bind {A B : Type} (c : res A) (k : A -> res B) : res B :=
  match c with
  | Ok a => k a
  | Err e => Err e
  end.

Notation "x <- c ;; k" := (bind c (fun x => k))
  (at level 61, c at next level, right associativity).

(** ** Python values produced by [json()] *)

Inductive json : Type :=
| JNull
| JBool (b : bool)
| JInt (n : Z)
| JFloat (f : float)
| JStr (s : string)
| JList (l : list json)
| JDict (d : list (string * json)).

(** [not v] is [negb (truthy v)]. *)
Definition truthy (v : json) : bool :=
  match v with
  | JNull => false
  | JBool b => b
  | JInt n => negb (n =? 0)
  | JFloat f => negb (PrimFloat.eqb f 0%float)
  | JStr s => negb (String.eqb s "")
  | JList l => match l with [] => false | _ => true end
  | JDict d => match d with [] => false | _ => true end
  end.

(** [v == s] for a string literal [s]: only a string equals a string. *)
Definition igual_a_texto (v : json) (s : string) : bool :=
  match v with
  | JStr t => String.eqb t s
  | _ => false
  end.

Fixpoint buscar (k : string) (d : list (string * json)) : option json :=
  match d with
  | [] => None
  | (k', v) :: d' => if String.eqb k k' then Some v else buscar k d'
  end.

(** [v[i]] for an integer literal [i >= 0].  A string is a sequence of
    bytes here and of code points in Python; the two agree on ASCII. *)
Definition indice (v : json) (i : nat) : res json :=
  match v with
  | JList l => match nth_error l i with
               | Some x => Ok x
               | None => Err IndexError
               end
  | JStr s => match String.get i s with
              | Some c => Ok (JStr (String c EmptyString))
              | None => Err IndexError
              end
  | JDict _ => Err KeyError
  | _ => Err TypeError
  end.

(** [v[k]] for a string literal [k]. *)
Definition clave (v : json) (k : string) : res json :=
  match v with
  | JDict d => match buscar k d with
               | Some x => Ok x
               | None => Err KeyError
               end
  | _ => Err TypeError
  end.

(** [k in v] for a string literal [k]. *)
Definition contiene (k : string) (v : json) : res bool :=
  match v with
  | JDict d => Ok (match buscar k d with Some _ => true | None => false end)
  | JList l => Ok (existsb (fun x => igual_a_texto x k) l)
  | JStr s => Ok (match String.index 0 k s with Some _ => true | None => false end)
  | _ => Err TypeError
  end.

(** The items that [for x in v] visits. *)
Definition iterar (v : json) : res (list json) :=
  match v with
  | JList l => Ok l
  | JStr s => Ok (map (fun c => JStr (String c EmptyString)) (list_ascii_of_string s))
  | JDict d => Ok (map (fun kv => JStr (fst kv)) d)
  | _ => Err TypeError
  end.

(** ** SQLite values

    A column holds NULL, an INTEGER, a REAL or a TEXT.  The type is
    parametric in the carrier of REAL so that the distance pass can be
    read both over IEEE doubles and over exact reals. *)

Inductive valor (F : Type) : Type :=
| VNull
| VInt (n : Z)
| VReal (x : F)
| VText (s : string).
Arguments VNull {F}.
Arguments VInt {F} n.
Arguments VReal {F} x.
Arguments VText {F} s.

Definition int64_min : Z := - 2 ^ 63.
Definition int64_max : Z := 2 ^ 63 - 1.

(** What the [sqlite3] module binds for a Python value passed as a
    statement parameter: [None], [int] (a [bool] is an [int]), [float] and
    [str] are supported, a NaN is bound as NULL, anything else raises. *)
Definition enlazar (v : json) : res (valor float) :=
  match v with
  | JNull => Ok VNull
  | JBool b => Ok (VInt (if b then 1 else 0))
  | JInt n => if (int64_min <=? n) && (n <=? int64_max) then Ok (VInt n)
              else Err OverflowError
  | JFloat f => Ok (if PrimFloat.is_nan f then VNull else VReal f)
  | JStr s => Ok (VText s)
  | JList _ => Err ProgrammingError
  | JDict _ => Err ProgrammingError
  end.

(** ** The store of the ingestion job

    [Avion_fisico] and [Snapshots] as [crear_tabla_principal] declares
    them.  Rows are kept in rowid order.  [sec_Avion_fisico] and
    [sec_Snapshots] are the [sqlite_sequence] entries of the two
    [AUTOINCREMENT] keys.  Rows hold the values as the [sqlite3] module
    binds them; the re-encoding that the column affinity of SQLite applies
    to a value of another storage class (a number bound to a TEXT column,
    a text bound to a numeric column) is outside the model. *)

Record fila_avion : Type := {
  av_id : Z;
  av_icao : valor float;
  av_call_sign : valor float;
  av_pais_origen : valor float
}.

Record fila_snapshot : Type := {
  sn_id : Z;
  sn_Avion_fisico_id : Z;
  sn_posicion_temporal : valor float;
  sn_tiempo_de_captura : Z;
  sn_longitud : valor float;
  sn_latitud : valor float;
  sn_altitud : valor float
}.

Record base : Type := {
  Avion_fisico : list fila_avion;
  sec_Avion_fisico : Z;
  Snapshots : list fila_snapshot;
  sec_Snapshots : Z
}.

Definition base_vacia : base :=
  {| Avion_fisico := []; sec_Avion_fisico := 0;
     Snapshots := []; sec_Snapshots := 0 |}.

(** SQL [=] as the UNIQUE index on [icao] and [WHERE icao = ?] use it:
    NULL equals nothing, not even NULL. *)
Definition sql_igual (a b : valor float) : bool :=
  match a, b with
  | VInt n, VInt m => n =? m
  | VReal x, VReal y => PrimFloat.eqb x y
  | VText s, VText t => String.eqb s t
  | _, _ => false
  end.

(** The rowid an AUTOINCREMENT table gives to the next row: one more than
    the largest rowid the table ever held. *)
Definition siguiente_id (ids : list Z) (sec : Z) : Z :=
  Z.max (fold_right Z.max 0 ids) sec + 1.

(** [CREATE TABLE IF NOT EXISTS] for both tables; [None] is a database
    file that has no tables yet. *)
Definition crear_tabla_principal (a : option base) : base :=
  match a with
  | Some b => b
  | None => base_vacia
  end.

Definition tiene_icao (i : valor float) (r : fila_avion) : bool :=
  sql_igual (av_icao r) i.

(** [INSERT OR IGNORE INTO Avion_fisico (icao, call_sign, pais_origen)
    VALUES (?, ?, ?)].  The rowid is drawn before the UNIQUE index is
    probed, so a row that is ignored still advances the sequence. *)
Definition insert_or_ignore_Avion_fisico
    (icao call_sign pais_origen : json) (b : base) : res base :=
  i <- enlazar icao ;;
  c <- enlazar call_sign ;;
  p <- enlazar pais_origen ;;
  let id := siguiente_id (map av_id (Avion_fisico b)) (sec_Avion_fisico b) in
  Ok {| Avion_fisico :=
          if existsb (tiene_icao i) (Avion_fisico b)
          then Avion_fisico b
          else Avion_fisico b ++
               [ {| av_id := id; av_icao := i;
                    av_call_sign := c; av_pais_origen := p |} ];
        sec_Avion_fisico := id;
        Snapshots := Snapshots b;
        sec_Snapshots := sec_Snapshots b |}.

(** [SELECT id FROM Avion_fisico WHERE icao = ?] followed by
    [fetchone()]: the first matching row, or [None]. *)
Definition select_id_Avion_fisico (icao : json) (b : base) : res (option Z) :=
  i <- enlazar icao ;;
  Ok (option_map av_id (find (tiene_icao i) (Avion_fisico b))).

(** [INSERT INTO Snapshots (Avion_fisico_id, posicion_temporal,
    tiempo_de_captura, longitud, latitud, altitud) VALUES (?,?,?,?,?,?)]. *)
Definition insert_Snapshots
    (Avion_fisico_id : Z) (posicion_temporal : json) (tiempo_de_captura : Z)
    (longitud latitud altitud : json) (b : base) : res base :=
  pt <- enlazar posicion_temporal ;;
  lo <- enlazar longitud ;;
  la <- enlazar latitud ;;
  al <- enlazar altitud ;;
  let id := siguiente_id (map sn_id (Snapshots b)) (sec_Snapshots b) in
  Ok {| Avion_fisico := Avion_fisico b;
        sec_Avion_fisico := sec_Avion_fisico b;
        Snapshots := Snapshots b ++
          [ {| sn_id := id; sn_Avion_fisico_id := Avion_fisico_id;
               sn_posicion_temporal := pt;
               sn_tiempo_de_captura := tiempo_de_captura;
               sn_longitud := lo; sn_latitud := la; sn_altitud := al |} ];
        sec_Snapshots := id |}.

(** ** What a job does to the outside world *)

Inductive evento : Type :=
| Abre_credenciales                (* open(credentials_path) *)
| Post_token                       (* requests.post(url_token, ...) *)
| Get_states                       (* requests.get(autorizacion_url, ...) *)
| Imprime (linea : string)
| Conecta (ruta : string)          (* sqlite3.connect(ruta) *)
| Crea_tablas                      (* executescript(CREATE TABLE IF NOT EXISTS ...) *)
| Commit
| Cierra.                          (* conn.close() *)

(** ** [llenar_tabla_en_sqlite] *)

Definition msg_error_formato : string :=
  "Hay un error con el formato del archivo JSON que ha provocado que no podamos llenar la tabla.".
Definition msg_tablas_llenadas : string :=
  "Las tablas ha sido llenada con éxito".

(** One turn of the [for avion in diccionario["states"]] loop. *)
Definition paso_avion (tiempo_de_captura : Z) (b : base) (avion : json) : res base :=
  pais <- indice avion 2 ;;
  if negb (igual_a_texto pais "Mexico") then Ok b        (* continue *)
  else
    icao <- indice avion 0 ;;
    call_sign <- indice avion 1 ;;
    pais_origen <- indice avion 2 ;;
    posicion_temporal <- indice avion 3 ;;
    longitud <- indice avion 5 ;;
    latitud <- indice avion 6 ;;
    altitud <- indice avion 7 ;;
    b1 <- insert_or_ignore_Avion_fisico icao call_sign pais_origen b ;;
    fila <- select_id_Avion_fisico icao b1 ;;
    Avion_fisico_id <- match fila with
                       | Some id => Ok id
                       | None => Err TypeError      (* None[0] *)
                       end ;;
    insert_Snapshots Avion_fisico_id posicion_temporal tiempo_de_captura
                     longitud latitud altitud b1.

Fixpoint recorrer (tiempo_de_captura : Z) (b : base) (aviones : list json) : res base :=
  match aviones with
  | [] => Ok b
  | avion :: resto =>
      b' <- paso_avion tiempo_de_captura b avion ;;
      recorrer tiempo_de_captura b' resto
  end.

(** [llenar_tabla_en_sqlite(diccionario, _conn_exp, _cur)], with [ahora]
    the value of [int(time.time())].  The result is the committed store
    and what the call did besides its SQL statements; an exception leaves
    the loop before [commit()]. *)
Definition llenar_tabla_en_sqlite (diccionario : json) (ahora : Z) (b : base)
  : res (base * list evento) :=
  states <- clave diccionario "states" ;;
  if negb (truthy states) then Ok (b, [Imprime msg_error_formato])
  else
    aviones <- iterar states ;;
    b' <- recorrer ahora b aviones ;;
    Ok (b', [Commit; Imprime msg_tablas_llenadas]).

(** What the database file holds after a run of
    [llenar_tabla_en_sqlite]: the committed store, or the old one when the
    run raised before [commit()] and its transaction was rolled back. *)
Definition corrida (b : base) (e : json * Z) : base :=
  match llenar_tabla_en_sqlite (fst e) (snd e) b with
  | Ok (b', _) => b'
  | Err _ => b
  end.

Definition corridas (es : list (json * Z)) (b : base) : base :=
  fold_left corrida es b.

(** ** Reading a state vector

    [campo avion i] is what a row stores for position [i] of the record:
    the value the [sqlite3] module binds for [avion[i]]. *)

Definition valor_de (v : json) : valor float :=
  match enlazar v with
  | Ok x => x
  | Err _ => VNull
  end.

Definition campo (avion : json) (i : nat) : valor float :=
  match indice avion i with
  | Ok v => valor_de v
  | Err _ => VNull
  end.

(** The nationality filter: the test [avion[2] != "Mexico"] fails. *)
Definition retenido (avion : json) : bool :=
  match indice avion 2 with
  | Ok pais => igual_a_texto pais "Mexico"
  | Err _ => false
  end.

Definition enlazable (v : json) : bool :=
  match enlazar v with
  | Ok _ => true
  | Err _ => false
  end.

(** A state vector as the API documents it: a list of at least eight
    positions whose first is the [icao] string and whose other consumed
    positions are scalars that SQLite can hold. *)
Definition registro_valido (avion : json) : bool :=
  match avion with
  | JList (JStr _ :: call_sign :: pais :: posicion :: _ :: lon :: lat :: alt :: _) =>
      enlazable call_sign && enlazable pais && enlazable posicion &&
      enlazable lon && enlazable lat && enlazable alt
  | _ => false
  end.

(** The identity row that a first sighting of [avion] adds. *)
Definition fila_nueva (b : base) (avion : json) : fila_avion :=
  {| av_id := siguiente_id (map av_id (Avion_fisico b)) (sec_Avion_fisico b);
     av_icao := campo avion 0;
     av_call_sign := campo avion 1;
     av_pais_origen := campo avion 2 |}.

(** [avion] is retained and no row has its [icao] yet. *)
Definition primera_vez (b : base) (avion : json) : bool :=
  retenido avion && negb (existsb (tiene_icao (campo avion 0)) (Avion_fisico b)).

(** The identity table after the [INSERT OR IGNORE] for [avion]. *)
Definition aviones_tras (b : base) (avion : json) : list fila_avion :=
  Avion_fisico b ++ (if primera_vez b avion then [fila_nueva b avion] else []).

(** The snapshot row that a retained [avion] adds. *)
Definition snapshot_nuevo (tiempo_de_captura : Z) (b : base) (avion : json)
  : fila_snapshot :=
  {| sn_id := siguiente_id (map sn_id (Snapshots b)) (sec_Snapshots b);
     sn_Avion_fisico_id :=
       match find (tiene_icao (campo avion 0)) (aviones_tras b avion) with
       | Some r => av_id r
       | None => 0
       end;
     sn_posicion_temporal := campo avion 3;
     sn_tiempo_de_captura := tiempo_de_captura;
     sn_longitud := campo avion 5;
     sn_latitud := campo avion 6;
     sn_altitud := campo avion 7 |}.

(** The store after one turn of the loop on a record that does not make
    it raise. *)
Definition paso_puro (tiempo_de_captura : Z) (b : base) (avion : json) : base :=
  if retenido avion then
    {| Avion_fisico := aviones_tras b avion;
       sec_Avion_fisico :=
         siguiente_id (map av_id (Avion_fisico b)) (sec_Avion_fisico b);
       Snapshots := Snapshots b ++ [snapshot_nuevo tiempo_de_captura b avion];
       sec_Snapshots :=
         siguiente_id (map sn_id (Snapshots b)) (sec_Snapshots b) |}
  else b.

Definition pasos (tiempo_de_captura : Z) (aviones : list json) (b : base) : base :=
  fold_left (paso_puro tiempo_de_captura) aviones b.

(** The columns of a snapshot that come from the record and the clock. *)
Definition columnas (s : fila_snapshot)
  : valor float * Z * valor float * valor float * valor float :=
  (sn_posicion_temporal s, sn_tiempo_de_captura s,
   sn_longitud s, sn_latitud s, sn_altitud s).

Definition columnas_de (tiempo_de_captura : Z) (avion : json)
  : valor float * Z * valor float * valor float * valor float :=
  (campo avion 3, tiempo_de_captura, campo avion 5, campo avion 6, campo avion 7).

(** The [states] list of a response, when it is a list. *)
Definition registros (diccionario : json) : option (list json) :=
  match clave diccionario "states" with
  | Ok (JList l) => Some l
  | _ => None
  end.

Definition entrada_valida (diccionario : json) : bool :=
  match registros diccionario with
  | Some l => forallb registro_valido l
  | None => false
  end.

Definition retenidos (diccionario : json) : list json :=
  match registros diccionario with
  | Some l => filter retenido l
  | None => []
  end.

(** Rows of the identity table whose [icao] is the text [s]. *)
Definition filas_de_icao (s : string) (t : list fila_avion) : list fila_avion :=
  filter (tiene_icao (VText s)) t.

Definition id_de_icao (s : string) (b : base) : option Z :=
  option_map av_id (find (tiene_icao (VText s)) (Avion_fisico b)).

(** The UNIQUE constraint on [icao], for text values. *)
Definition icao_unico (b : base) : Prop :=
  forall s, (List.length (filas_de_icao s (Avion_fisico b)) <= 1)%nat.

(** What a snapshot added by a run says about the record it comes from. *)
Definition snapshot_de (t : Z) (final : base) (sn : fila_snapshot) (avion : json)
  : Prop :=
  columnas sn = columnas_de t avion /\
  exists s, campo avion 0 = VText s /\
            id_de_icao s final = Some (sn_Avion_fisico_id sn).


(** A run avista [s] when its response is well formed and one of its
    retained records has the [icao] [s]. *)
Definition avista (s : string) (e : json * Z) : Prop :=
  entrada_valida (fst e) = true /\
  exists avion, In avion (retenidos (fst e)) /\ campo avion 0 = VText s.

(** ** The jobs as programs

    A job runs in a [mundo]: the lines and calls it has issued so far and
    the database file.  It goes on with a value, or stops: [exit()], an
    exception that nothing catches, or the end of [main]. *)

Inductive fin : Type :=
| Termina
| Exit
| Lanza (e : excepcion).

Inductive curso (A : Type) : Type :=
| Sigue (a : A)
| Para (f : fin).
Arguments Sigue {A} a.
Arguments Para {A} f.

Record mundo (S : Type) : Type := {
  traza : list evento;
  archivo : S
}.
Arguments traza {S} m.
Arguments archivo {S} m.

Definition prog (S A : Type) : Type := mundo S -> mundo S * curso A.

Definition ret {S A : Type} (a : A) : prog S A := fun m => (m, Sigue a).

Definition luego {S A B : Type} (c : prog S A) (k : A -> prog S B) : prog S B :=
  fun m => match c m with
           | (m', Sigue a) => k a m'
           | (m', Para f) => (m', Para f)
           end.

Notation "x <~ c ;; k" := (luego c (fun x => k))
  (at level 61, c at next level, right associativity).
Notation "c ;;; k" := (luego c (fun _ => k))
  (at level 61, right associativity).

Definition hace {S : Type} (e : evento) : prog S unit :=
  fun m => ({| traza := traza m ++ [e]; archivo := archivo m |}, Sigue tt).

Definition print {S : Type} (linea : string) : prog S unit := hace (Imprime linea).

Definition exit {S A : Type} : prog S A := fun m => (m, Para Exit).

(** A value, or the exception that escapes to the top of the job. *)
Definition propaga {S A : Type} (r : res A) : prog S A :=
  fun m => match r with
           | Ok a => (m, Sigue a)
           | Err e => (m, Para (Lanza e))
           end.

Definition lee_archivo {S : Type} : prog S S := fun m => (m, Sigue (archivo m)).

Definition escribe_archivo {S : Type} (s : S) : prog S unit :=
  fun m => ({| traza := traza m; archivo := s |}, Sigue tt).

(** [main()] run to its end from a world with an empty trace. *)
Definition ejecutar {S : Type} (c : prog S unit) (s : S) : mundo S * fin :=
  match c {| traza := []; archivo := s |} with
  | (m, Sigue _) => (m, Termina)
  | (m, Para f) => (m, f)
  end.

(** An HTTP exchange as the [requests] library reports it. *)
Inductive http : Type :=
| Tiempo_agotado                              (* requests.exceptions.Timeout *)       
| Sin_conexion                         (* requests.exceptions.ConnectionError *)
| Respuesta (cuerpo : option json).    (* the body; [None] when it is not JSON *)

(** What the ingestion job finds outside: [sys.argv], the file
    [credentials.json] ([None]: no such file; [Some None]: not JSON), the
    two endpoints and the clock. *)
Record entorno : Type := {
  argv : list string;
  credentials_json : option (option json);
  token_endpoint : http;
  states_endpoint : http;
  reloj : Z
}.

Module Ingest.

Definition msg_sin_credenciales : string :=
  "El archivo credentials.json no se encuentra en la carpeta del proyecto.".
Definition msg_timeout_token : string :=
  "La petición tardó demasiado desde la función obtener_token y fue cancelada.".
Definition msg_sin_conexion : string :=
  "No fue posible conectarse a OpenSky Network por falta de conexión o porque la red está bloqueando el acceso al servidor.".
Definition msg_timeout_endpoint : string :=
  "La petición tardó demasiado en la función llamar_al_endpoint y fue cancelada.".
Definition msg_sin_vuelos : string :=
  "No se pudo obtener información de vuelos.".
Definition msg_uso : string :=
  "El formato de tu ruta solo debería ser: python Airplanes_ingest_flight_snapshots.py <path_to_sqlite_db>".
Definition msg_database : string := "Estas usando la database: ".

Definition obtener_credenciales_de_json (env : entorno)
  : prog (option base) (json * json) :=
  hace Abre_credenciales ;;;
  match credentials_json env with
  | None => print msg_sin_credenciales ;;; ret (JNull, JNull)
  | Some None => propaga (Err JSONDecodeError)
  | Some (Some texto_json_en_python) =>
      _opensky_client_id <~ propaga (clave texto_json_en_python "clientId") ;;
      _opensky_client_secret <~ propaga (clave texto_json_en_python "clientSecret") ;;
      ret (_opensky_client_id, _opensky_client_secret)
  end.

Definition obtener_token (env : entorno)
    (_opensky_client_id _opensky_client_secret : json)
  : prog (option base) json :=
  hace Post_token ;;;
  match token_endpoint env with
  | Tiempo_agotado => print msg_timeout_token ;;; ret JNull
  | Sin_conexion => print msg_sin_conexion ;;; ret JNull
  | Respuesta None => propaga (Err JSONDecodeError)
  | Respuesta (Some response) => propaga (clave response "access_token")
  end.

Definition llamar_al_endpoint (env : entorno) (_token : json)
  : prog (option base) json :=
  hace Get_states ;;;
  match states_endpoint env with
  | Tiempo_agotado => print msg_timeout_endpoint ;;; ret JNull
  | Sin_conexion => propaga (Err ConnectionError)
  | Respuesta None => propaga (Err JSONDecodeError)
  | Respuesta (Some aviones_en_json) => ret aviones_en_json
  end.

(** [not todos_los_aviones or "states" not in todos_los_aviones] *)
Definition sin_states (todos_los_aviones : json) : res bool :=
  if negb (truthy todos_los_aviones) then Ok true
  else esta <- contiene "states" todos_los_aviones ;; Ok (negb esta).

Definition main (env : entorno) : prog (option base) unit :=
  cred <~ obtener_credenciales_de_json env ;;
  let '(opensky_client_id, opensky_client_secret) := cred in
  (if negb (truthy opensky_client_id) || negb (truthy opensky_client_secret)
   then exit else ret tt) ;;;
  token <~ obtener_token env opensky_client_id opensky_client_secret ;;
  (if negb (truthy token) then exit else ret tt) ;;;
  todos_los_aviones <~ llamar_al_endpoint env token ;;
  falta <~ propaga (sin_states todos_los_aviones) ;;
  (if falta : bool then print msg_sin_vuelos ;;; exit else ret tt) ;;;
  (if negb (Nat.eqb (List.length (argv env)) 2)
   then print msg_uso ;;; exit else ret tt) ;;;
  let database_exploratoria_path := nth 1 (argv env) "" in
  print (msg_database ++ database_exploratoria_path)%string ;;;
  hace (Conecta database_exploratoria_path) ;;;
  hace Crea_tablas ;;;
  a <~ lee_archivo ;;
  let b := crear_tabla_principal a in
  escribe_archivo (Some b) ;;;
  r <~ propaga (llenar_tabla_en_sqlite todos_los_aviones (reloj env) b) ;;
  let '(b', hecho) := r in
  escribe_archivo (Some b') ;;;
  fold_right (fun e k => hace e ;;; k) (ret tt) hecho ;;;
  hace Cierra.

End Ingest.

(** ** The distance pass

    [Airplanes_compute_flight_snapshots.py] computes with Python floats
    and the [math] module.  Its arithmetic is the interface [Aritmetica];
    the pass is written once over it and read at two instances: IEEE
    doubles with the platform's C library as a parameter, and exact real
    numbers. *)

Class Aritmetica (F : Type) : Type := {
  de_entero : Z -> F;                 (* float(n) for an int n *)
  producto : F -> F -> F;
  suma : F -> F -> F;
  resta : F -> F -> F;
  math_radians : F -> F;
  math_sin : F -> res F;              (* ValueError: math domain error *)
  math_cos : F -> res F;
  math_acos : F -> res F;
  round_2 : F -> F;                   (* round(x, 2) *)
  enlazar_real : F -> valor F         (* a float bound as a parameter *)
}.

(** Modelled from the spec: the table [Trayectorias_validas] is read and
    updated by the code but created elsewhere.  The design document gives
    it the key [aircraft_id], a reference to the INTEGER id of the identity
    table, the four coordinates and the nullable distance. *)
Record fila_trayectoria (F : Type) : Type := {
  tr_Avion_fisico_id : option Z;
  tr_lat_inicio : valor F;
  tr_lon_inicio : valor F;
  tr_lat_fin : valor F;
  tr_lon_fin : valor F;
  tr_distancia_inicio_a_fin_km : valor F
}.
Arguments tr_Avion_fisico_id {F} f.
Arguments tr_lat_inicio {F} f.
Arguments tr_lon_inicio {F} f.
Arguments tr_lat_fin {F} f.
Arguments tr_lon_fin {F} f.
Arguments tr_distancia_inicio_a_fin_km {F} f.

Section Distancias.
Context {F : Type} {A : Aritmetica F}.

(** [radians(v)] for a value read from a row: an int is converted, [None]
    and [str] are a TypeError. *)
Definition radians (v : valor F) : res F :=
  match v with
  | VInt n => Ok (math_radians (de_entero n))
  | VReal x => Ok (math_radians x)
  | VNull => Err TypeError
  | VText _ => Err TypeError
  end.

(** Line 73 of the source, on the four angles in radians. *)
Definition distancia_km (lat_inicio lon_inicio lat_fin lon_fin : F) : res F :=
  s1 <- math_sin lat_inicio ;;
  s2 <- math_sin lat_fin ;;
  c1 <- math_cos lat_inicio ;;
  c2 <- math_cos lat_fin ;;
  c3 <- math_cos (resta lon_inicio lon_fin) ;;
  a <- math_acos (suma (producto s1 s2) (producto (producto c1 c2) c3)) ;;
  Ok (round_2 (producto (de_entero 6371) a)).

(** Lines 66 to 73: the distance of one fetched row. *)
Definition distancia_de_fila (avion : fila_trayectoria F) : res F :=
  lat_inicio <- radians (tr_lat_inicio avion) ;;
  lon_inicio <- radians (tr_lon_inicio avion) ;;
  lat_fin <- radians (tr_lat_fin avion) ;;
  lon_fin <- radians (tr_lon_fin avion) ;;
  distancia_km lat_inicio lon_inicio lat_fin lon_fin.

(** SQL [Avion_fisico_id = ?]: NULL equals nothing. *)
Definition mismo_avion (a b : option Z) : bool :=
  match a, b with
  | Some x, Some y => x =? y
  | _, _ => false
  end.

Definition con_distancia (d : valor F) (r : fila_trayectoria F) : fila_trayectoria F :=
  {| tr_Avion_fisico_id := tr_Avion_fisico_id r;
     tr_lat_inicio := tr_lat_inicio r;
     tr_lon_inicio := tr_lon_inicio r;
     tr_lat_fin := tr_lat_fin r;
     tr_lon_fin := tr_lon_fin r;
     tr_distancia_inicio_a_fin_km := d |}.

(** [UPDATE Trayectorias_validas SET distancia_inicio_a_fin_km = ?
    WHERE Avion_fisico_id = ?]. *)
Definition update_distancia (d : F) (Avion_id_en_python : option Z)
    (t : list (fila_trayectoria F)) : list (fila_trayectoria F) :=
  map (fun r => if mismo_avion (tr_Avion_fisico_id r) Avion_id_en_python
                then con_distancia (enlazar_real d) r else r) t.

(** The [for avion in lista_por_avion] loop: the rows are the ones
    fetched before the loop, the table is the one being updated. *)
Fixpoint recorrer_trayectorias (lista_por_avion : list (fila_trayectoria F))
    (t : list (fila_trayectoria F)) : res (list (fila_trayectoria F)) :=
  match lista_por_avion with
  | [] => Ok t
  | avion :: resto =>
      distancia_km <- distancia_de_fila avion ;;
      recorrer_trayectorias resto
        (update_distancia distancia_km (tr_Avion_fisico_id avion) t)
  end.

Definition msg_sin_trayectorias : string :=
  "La database esta vacía, lo que implica que no hubo trayectorias válidas para procesar.".
Definition msg_columna_agregada : string :=
  "Has agregado la columna con nuevos datos exitosamente".

(** [calcular_distancias_trayectorias(_conn_retr, _cur_retr)] on the
    table, [None] when the database has no such table. *)
Definition calcular_distancias_trayectorias
    (tabla : option (list (fila_trayectoria F)))
  : res (list (fila_trayectoria F) * list evento) :=
  match tabla with
  | None => Err OperationalError
  | Some lista_por_avion =>
      match lista_por_avion with
      | [] => Ok (lista_por_avion, [Imprime msg_sin_trayectorias])
      | _ :: _ =>
          t <- recorrer_trayectorias lista_por_avion lista_por_avion ;;
          Ok (t, [Commit; Imprime msg_columna_agregada])
      end
  end.


(** What the turn of the loop for [avion] does to one row of the table. *)
Definition paso_fila (r avion : fila_trayectoria F) : fila_trayectoria F :=
  match distancia_de_fila avion with
  | Ok d => if mismo_avion (tr_Avion_fisico_id r) (tr_Avion_fisico_id avion)
            then con_distancia (enlazar_real d) r else r
  | Err _ => r
  end.

(** The last fetched row with the key [id]: the one whose [UPDATE] is the
    last to reach the rows with that key. *)
Definition ultima_fila (id : option Z) (l : list (fila_trayectoria F))
  : option (fila_trayectoria F) :=
  find (fun a => mismo_avion id (tr_Avion_fisico_id a)) (rev l).

(** A row after every [UPDATE] of a pass over the fetched rows [l]. *)
Definition fila_tras_pase (l : list (fila_trayectoria F)) (r : fila_trayectoria F)
  : fila_trayectoria F :=
  match ultima_fila (tr_Avion_fisico_id r) l with
  | Some a => match distancia_de_fila a with
              | Ok d => con_distancia (enlazar_real d) r
              | Err _ => r
              end
  | None => r
  end.

(** [radians] accepts the value: an int or a float. *)
Definition numerica (v : valor F) : bool :=
  match v with
  | VInt _ | VReal _ => true
  | VNull | VText _ => false
  end.

Definition coordenadas_numericas (r : fila_trayectoria F) : bool :=
  numerica (tr_lat_inicio r) && numerica (tr_lon_inicio r) &&
  numerica (tr_lat_fin r) && numerica (tr_lon_fin r).

End Distancias.

Module Compute.

Definition msg_uso : string :=
  "El formato de tu ruta solo debería ser: python Airplanes_compute_flight_snapshots.py <path_to_sqlite_db>".
Definition msg_database : string := "Estas usando la database: ".

Definition main {F : Type} {A : Aritmetica F} (argv : list string)
  : prog (option (list (fila_trayectoria F))) unit :=
  (if negb (Nat.eqb (List.length argv) 2)
   then print msg_uso ;;; exit else ret tt) ;;;
  let database_retrieval_path := nth 1 argv "" in
  print (msg_database ++ database_retrieval_path)%string ;;;
  hace (Conecta database_retrieval_path) ;;;
  tabla <~ lee_archivo ;;
  r <~ propaga (calcular_distancias_trayectorias tabla) ;;
  let '(t, hecho) := r in
  escribe_archivo (Some t) ;;;
  fold_right (fun e k => hace e ;;; k) (ret tt) hecho ;;;
  hace Cierra.

End Compute.

(** *** IEEE doubles

    Products, sums and differences are the IEEE operations.  The sine,
    cosine and arc cosine of the C library and the interpreter's rounding
    to two decimals are parameters; [math_1] is the check that the [math]
    module puts around a C function. *)

Record plataforma : Type := {
  c_sin : float -> float;
  c_cos : float -> float;
  c_acos : float -> float;
  py_round_2 : float -> float
}.

Definition math_1 (f : float -> float) (x : float) : res float :=
  let r := f x in
  if PrimFloat.is_nan r && negb (PrimFloat.is_nan x) then Err ValueError
  else if PrimFloat.is_infinity r && PrimFloat.is_finite x then Err ValueError
  else Ok r.

Definition pi_doble : float := 0x1.921fb54442d18p+1%float.

#[export] Instance aritmetica_doble (p : plataforma) : Aritmetica float := {
  de_entero n := SF2Prim (SpecFloat.binary_normalize prec emax n 0 false);
  producto := PrimFloat.mul;
  suma := PrimFloat.add;
  resta := PrimFloat.sub;
  math_radians x := PrimFloat.mul x (PrimFloat.div pi_doble 180%float);
  math_sin := math_1 (c_sin p);
  math_cos := math_1 (c_cos p);
  math_acos := math_1 (c_acos p);
  round_2 := py_round_2 p;
  enlazar_real x := if PrimFloat.is_nan x then VNull else VReal x
}.

(** *** Exact real numbers *)

Definition redondeo_par (y : R) : Z :=
  let n := Int_part y in
  if Rlt_dec (frac_part y) (1 / 2) then n
  else if Rlt_dec (1 / 2) (frac_part y) then n + 1
  else if Z.even n then n else n + 1.

Definition acos_real (x : R) : res R :=
  if Rle_dec (-1) x then
    if Rle_dec x 1 then Ok (acos x) else Err ValueError
  else Err ValueError.

#[export] Instance aritmetica_real : Aritmetica R := {
  de_entero := IZR;
  producto := Rmult;
  suma := Rplus;
  resta := Rminus;
  math_radians x := (x * (PI / 180))%R;
  math_sin x := Ok (sin x);
  math_cos x := Ok (cos x);
  math_acos := acos_real;
  round_2 x := (IZR (redondeo_par (x * 100)) / 100)%R;
  enlazar_real := VReal
}.

(** *** Rows over exact reals *)



(** *** The pass over IEEE doubles *)

Definition fila_doble (id : option Z) (lat_inicio lon_inicio lat_fin lon_fin : float)
  : fila_trayectoria float :=
  {| tr_Avion_fisico_id := id;
     tr_lat_inicio := VReal lat_inicio;
     tr_lon_inicio := VReal lon_inicio;
     tr_lat_fin := VReal lat_fin;
     tr_lon_fin := VReal lon_fin;
     tr_distancia_inicio_a_fin_km := VNull |}.

(** A position north of Mexico City, 19.005 and -99.1332 degrees as
    doubles; [radians] of the latitude, and the sine and cosine that glibc
    returns for it. *)
Definition latitud_ejemplo : float := 0x1.30147ae147ae1p+4%float.
Definition longitud_ejemplo : float := (-0x1.8c886594af4f1p+6)%float.
Definition radianes_latitud : float := 0x1.53a91e668b0abp-2%float.
Definition seno_latitud : float := 0x1.4d775e352c19fp-2%float.
Definition coseno_latitud : float := 0x1.e417494ece2f8p-1%float.

(** The values that glibc and CPython return at the arguments that the
    examples reach; the table answers NaN anywhere else. *)
Definition plataforma_tabla : plataforma :=
  {| c_sin x :=
       if PrimFloat.eqb x 0%float then x
       else if PrimFloat.eqb x radianes_latitud then seno_latitud
       else PrimFloat.nan;
     c_cos x :=
       if PrimFloat.eqb x 0%float then 1%float
       else if PrimFloat.eqb x radianes_latitud then coseno_latitud
       else if PrimFloat.eqb (PrimFloat.abs x) pi_doble then (-1)%float
       else PrimFloat.nan;
     c_acos x :=
       if PrimFloat.eqb x 1%float then 0%float
       else if PrimFloat.eqb x (-1)%float then pi_doble
       else PrimFloat.nan;
     py_round_2 x :=
       if PrimFloat.eqb x 0%float then x
       else if PrimFloat.eqb x 0x1.38bc58e10e572p+14%float
            then 0x1.38bc5c28f5c29p+14%float
       else PrimFloat.nan |}.

Definition tabla_ejemplo : list (fila_trayectoria float) :=
  [ fila_doble (Some 1) 0 0 0 180; fila_doble (Some 2) 0 0 0 0 ].


(** A row whose end position is unknown. *)
Definition fila_sin_fin : fila_trayectoria float :=
  {| tr_Avion_fisico_id := Some 2;
     tr_lat_inicio := VReal 0%float; tr_lon_inicio := VReal 0%float;
     tr_lat_fin := VNull; tr_lon_fin := VNull;
     tr_distancia_inicio_a_fin_km := VNull |}.

(** ** What the properties of [main] speak about *)

(** The events that reach the database. *)
Definition toca_base (e : evento) : bool :=
  match e with
  | Conecta _ | Crea_tablas | Commit | Cierra => true
  | _ => false
  end.

(** The credential file and the token exchange let [main] reach the
    fetch: both credentials and the token are there and truthy. *)
Definition credenciales_y_token (env : entorno) : bool :=
  match credentials_json env, token_endpoint env with
  | Some (Some c), Respuesta (Some r) =>
      match clave c "clientId", clave c "clientSecret", clave r "access_token" with
      | Ok id, Ok secret, Ok token => truthy id && truthy secret && truthy token
      | _, _, _ => false
      end
  | _, _ => false
  end.

(** The fetch gave no response (a timeout), an empty one, or a JSON
    object without the key "states". *)
Definition respuesta_sin_states (h : http) : bool :=
  match h with
  | Tiempo_agotado => true
  | Respuesta (Some r) =>
      negb (truthy r) ||
      match r with
      | JDict d => match buscar "states" d with None => true | Some _ => false end
      | _ => false
      end
  | _ => false
  end.

(** The fetch gave a JSON object with the key "states". *)
Definition respuesta_con_states (h : http) : bool :=
  match h with
  | Respuesta (Some (JDict d)) =>
      truthy (JDict d) &&
      match buscar "states" d with Some _ => true | None => false end
  | _ => false
  end.

(** The credential file holds both credentials, and both are truthy. *)
Definition credenciales_validas (env : entorno) : bool :=
  match credentials_json env with
  | Some (Some c) =>
      match clave c "clientId", clave c "clientSecret" with
      | Ok id, Ok secret => truthy id && truthy secret
      | _, _ => false
      end
  | _ => false
  end.

(** What the schema and the loop keep of the store: the keys of both
    tables are distinct and not above their sequence, and every snapshot
    refers to an identity row. *)
Definition integra (b : base) : Prop :=
  NoDup (map av_id (Avion_fisico b)) /\
  Forall (fun r => av_id r <= sec_Avion_fisico b) (Avion_fisico b) /\
  NoDup (map sn_id (Snapshots b)) /\
  Forall (fun s => sn_id s <= sec_Snapshots b) (Snapshots b) /\
  Forall (fun s => In (sn_Avion_fisico_id s) (map av_id (Avion_fisico b)))
         (Snapshots b).

(** ** Concrete data *)

(** A state vector as the API sends it; only the first eight positions
    matter to the code. *)
Definition avion_ejemplo (icao call_sign pais : string) : json :=
  JList [ JStr icao; JStr call_sign; JStr pais; JInt 1700000000; JInt 1700000003;
          JFloat (-99.125)%float; JFloat 19.4375%float; JFloat 2240%float;
          JBool false ].

Definition respuesta_ejemplo (states : list json) : json :=
  JDict [ ("time", JInt 1700000005); ("states", JList states) ].

(** A store that already knows the aircraft 0d0a1b under the call sign
    AMX001. *)
Definition fila_conocida : fila_avion :=
  {| av_id := 1; av_icao := VText "0d0a1b";
     av_call_sign := VText "AMX001"; av_pais_origen := VText "Mexico" |}.

Definition base_conocida : base :=
  {| Avion_fisico := [fila_conocida]; sec_Avion_fisico := 1;
     Snapshots := []; sec_Snapshots := 0 |}.

Definition corridas_ejemplo : list (json * Z) :=
  [ (respuesta_ejemplo [ avion_ejemplo "0d0a1b" "AMX001" "Mexico";
                         avion_ejemplo "a1b2c3" "UAL12" "United States" ],
     1700000010);
    (respuesta_ejemplo [ avion_ejemplo "0d0a1b" "AMX002" "Mexico" ],
     1700000070) ].

Definition entorno_ejemplo (argumentos : list string) (states : http) : entorno :=
  {| argv := argumentos;
     credentials_json :=
       Some (Some (JDict [ ("clientId", JStr "usuario-api-client");
                           ("clientSecret", JStr "s3cr3t0") ]));
     token_endpoint :=
       Respuesta (Some (JDict [ ("access_token", JStr "eyJhbGciOi");
                                ("expires_in", JInt 1800) ]));
     states_endpoint := states;
     reloj := 1700000010 |}.

Definition solo_el_script : list string := ["Airplanes_ingest_flight_snapshots.py"].

(** * Properties of the ingestion job *)

Lemma paso_avion_Ok t b avion b' :
  paso_avion t b avion = Ok b' -> b' = paso_puro t b avion.
Proof.
  unfold paso_avion, paso_puro, snapshot_nuevo, aviones_tras, primera_vez,
    fila_nueva, retenido, campo.
  intros H.
  destruct (indice avion 2) as [pais|] eqn:E2; cbn [bind] in H; [ | discriminate H ].
  destruct (igual_a_texto pais "Mexico") eqn:Em; cbn [negb] in H.
  2: { now inversion H. }
  destruct (indice avion 0) as [icao|] eqn:E0; cbn [bind] in H; [ | discriminate H ].
  destruct (indice avion 1) as [cs|] eqn:E1; cbn [bind] in H; [ | discriminate H ].
  destruct (indice avion 3) as [pt|] eqn:E3; cbn [bind] in H; [ | discriminate H ].
  destruct (indice avion 5) as [lo|] eqn:E5; cbn [bind] in H; [ | discriminate H ].
  destruct (indice avion 6) as [la|] eqn:E6; cbn [bind] in H; [ | discriminate H ].
  destruct (indice avion 7) as [al|] eqn:E7; cbn [bind] in H; [ | discriminate H ].
  unfold insert_or_ignore_Avion_fisico, select_id_Avion_fisico, insert_Snapshots in H.
  unfold valor_de.
  destruct (enlazar icao) as [I|] eqn:B0; cbn [bind] in H; [ | discriminate H ].
  destruct (enlazar cs) as [C|] eqn:B1; cbn [bind] in H; [ | discriminate H ].
  destruct (enlazar pais) as [P|] eqn:B2; cbn [bind] in H; [ | discriminate H ].
  cbn [Avion_fisico sec_Avion_fisico Snapshots sec_Snapshots] in H.
  destruct (find (tiene_icao I) _) as [r|] eqn:Ef; cbn [option_map bind] in H;
    [ | discriminate H ].
  destruct (enlazar pt) as [PT|] eqn:B3; cbn [bind] in H; [ | discriminate H ].
  destruct (enlazar lo) as [LO|] eqn:B5; cbn [bind] in H; [ | discriminate H ].
  destruct (enlazar la) as [LA|] eqn:B6; cbn [bind] in H; [ | discriminate H ].
  destruct (enlazar al) as [AL|] eqn:B7; cbn [bind] in H; [ | discriminate H ].
  inversion H; subst b'; clear H.
  cbn [andb]. f_equal.
  - destruct (existsb _ _); cbn [negb]; [now rewrite app_nil_r | reflexivity].
  - do 2 f_equal. f_equal.
    destruct (existsb _ _); cbn [negb] in *; [rewrite app_nil_r|]; now rewrite Ef.
Qed.

(** *** Lists: [find], [existsb] and [filter] *)

Section Listas.
Context {A : Type} (f : A -> bool).

Lemma existsb_filter (l : list A) :
  existsb f l = match filter f l with [] => false | _ :: _ => true end.
Proof.
  induction l as [|x l IH]; cbn; [reflexivity|].
  destruct (f x); cbn; [reflexivity | exact IH].
Qed.

Lemma find_filter (l : list A) : find f l = hd_error (filter f l).
Proof.
  induction l as [|x l IH]; cbn; [reflexivity|].
  destruct (f x); cbn; [reflexivity | exact IH].
Qed.

Lemma filter_nuevo (l : list A) (x : A) :
  filter f (l ++ [x]) = filter f l ++ (if f x then [x] else []).
Proof.
  rewrite filter_app. cbn. destruct (f x); reflexivity.
Qed.
End Listas.

(** *** Text keys *)

Lemma sql_igual_texto (v : valor float) (s : string) :
  sql_igual v (VText s) = true <-> v = VText s.
Proof.
  destruct v; cbn; split; intros H; try discriminate H.
  - apply String.eqb_eq in H. now subst.
  - inversion H. apply String.eqb_refl.
Qed.

(** *** One turn of the loop *)

Lemma paso_avion_total t b avion :
  registro_valido avion = true ->
  paso_avion t b avion = Ok (paso_puro t b avion).
Proof.
  intros V.
  assert (exists b', paso_avion t b avion = Ok b') as [b' Hb'].
  { destruct avion as [| | | | |l|]; try discriminate V.
    destruct l as [|[| | | |icao| |] [|cs [|pais [|pt [|x [|lo [|la [|al l]]]]]]]];
      try discriminate V.
    cbn in V. unfold enlazable in V.
    destruct (enlazar cs) as [C|] eqn:B1; [|discriminate V].
    destruct (enlazar pais) as [P|] eqn:B2; [|discriminate V].
    destruct (enlazar pt) as [PT|] eqn:B3; [|discriminate V].
    destruct (enlazar lo) as [LO|] eqn:B5; [|discriminate V].
    destruct (enlazar la) as [LA|] eqn:B6; [|discriminate V].
    destruct (enlazar al) as [AL|] eqn:B7; [|discriminate V].
    unfold paso_avion. cbn [indice nth_error bind].
    destruct (igual_a_texto pais "Mexico"); cbn [negb]; [|now eexists].
    unfold insert_or_ignore_Avion_fisico, select_id_Avion_fisico, insert_Snapshots.
    cbn [enlazar bind]. rewrite B1, B2. cbn [bind].
    cbn [Avion_fisico sec_Avion_fisico Snapshots sec_Snapshots].
    rewrite find_filter.
    destruct (existsb (tiene_icao (VText icao)) (Avion_fisico b)) eqn:Ee.
    - rewrite existsb_filter in Ee.
      destruct (filter (tiene_icao (VText icao)) (Avion_fisico b)) as [|r rs];
        [discriminate Ee|].
      cbn [hd_error option_map bind]. rewrite B3, B5, B6, B7. cbn [bind].
      now eexists.
    - rewrite existsb_filter in Ee. rewrite filter_nuevo.
      destruct (filter (tiene_icao (VText icao)) (Avion_fisico b)) as [|r rs];
        [|discriminate Ee].
      unfold tiene_icao at 1. cbn [av_icao sql_igual]. rewrite String.eqb_refl.
      cbn [app hd_error option_map bind]. rewrite B3, B5, B6, B7. cbn [bind].
      now eexists. }
  rewrite Hb'. f_equal. now apply paso_avion_Ok.
Qed.

Lemma paso_puro_Snapshots t b avion :
  Snapshots (paso_puro t b avion) =
  Snapshots b ++ (if retenido avion then [snapshot_nuevo t b avion] else []).
Proof.
  unfold paso_puro. destruct (retenido avion); cbn; [reflexivity|].
  now rewrite app_nil_r.
Qed.

Lemma paso_puro_Avion_fisico t b avion :
  Avion_fisico (paso_puro t b avion) = aviones_tras b avion.
Proof.
  unfold paso_puro, aviones_tras, primera_vez.
  destruct (retenido avion); cbn; [reflexivity|]. now rewrite app_nil_r.
Qed.

(** How the rows of one [icao] evolve: a row is added only when there is
    none. *)
Lemma paso_puro_filas s t b avion :
  filas_de_icao s (Avion_fisico (paso_puro t b avion)) =
  if primera_vez b avion && sql_igual (campo avion 0) (VText s)
  then [fila_nueva b avion]
  else filas_de_icao s (Avion_fisico b).
Proof.
  rewrite paso_puro_Avion_fisico. unfold aviones_tras, filas_de_icao.
  destruct (primera_vez b avion) eqn:Ep; cbn [andb].
  - rewrite filter_nuevo. unfold tiene_icao at 2. cbn [fila_nueva av_icao].
    destruct (sql_igual (campo avion 0) (VText s)) eqn:Es.
    + apply sql_igual_texto in Es.
      unfold primera_vez in Ep. apply andb_prop in Ep as [_ Ep].
      rewrite Es in Ep. rewrite existsb_filter in Ep.
      destruct (filter (tiene_icao (VText s)) (Avion_fisico b));
        [reflexivity | discriminate Ep].
    + now rewrite app_nil_r.
  - now rewrite app_nil_r.
Qed.

Lemma primera_vez_sin_filas s b avion :
  primera_vez b avion = true -> campo avion 0 = VText s ->
  filas_de_icao s (Avion_fisico b) = [].
Proof.
  unfold primera_vez, filas_de_icao. intros Ep Es.
  apply andb_prop in Ep as [_ Ep]. rewrite Es, existsb_filter in Ep.
  destruct (filter _ _); [reflexivity | discriminate Ep].
Qed.

Lemma paso_filas_estable s t b avion :
  filas_de_icao s (Avion_fisico b) <> [] ->
  filas_de_icao s (Avion_fisico (paso_puro t b avion)) =
  filas_de_icao s (Avion_fisico b).
Proof.
  intros Hne. rewrite paso_puro_filas.
  destruct (primera_vez b avion) eqn:Ep; cbn [andb]; [|reflexivity].
  destruct (sql_igual _ _) eqn:Es; [|reflexivity].
  apply sql_igual_texto in Es.
  now rewrite (primera_vez_sin_filas _ _ _ Ep Es) in Hne.
Qed.

Lemma paso_filas_unico s t b avion :
  (List.length (filas_de_icao s (Avion_fisico b)) <= 1)%nat ->
  (List.length (filas_de_icao s (Avion_fisico (paso_puro t b avion))) <= 1)%nat.
Proof.
  intros Hu. rewrite paso_puro_filas.
  destruct (_ && _); [cbn; lia | exact Hu].
Qed.

Lemma paso_filas_presente s t b avion :
  retenido avion = true -> campo avion 0 = VText s ->
  filas_de_icao s (Avion_fisico (paso_puro t b avion)) <> [].
Proof.
  intros Hr Hs. rewrite paso_puro_filas.
  unfold primera_vez. rewrite Hr, Hs. cbn [andb sql_igual].
  rewrite String.eqb_refl, andb_true_r.
  unfold filas_de_icao. rewrite existsb_filter.
  destruct (filter _ _); cbn; congruence.
Qed.

(** *** The loop *)

Lemma recorrer_Ok t l :
  forall b b', recorrer t b l = Ok b' -> b' = pasos t l b.
Proof.
  induction l as [|a l IH]; cbn; intros b b' H.
  - now inversion H.
  - destruct (paso_avion t b a) as [b1|] eqn:E; cbn [bind] in H;
      [|discriminate H].
    apply paso_avion_Ok in E. subst b1. now apply IH.
Qed.

Lemma recorrer_total t l :
  forallb registro_valido l = true ->
  forall b, recorrer t b l = Ok (pasos t l b).
Proof.
  induction l as [|a l IH]; cbn; intros V b; [reflexivity|].
  apply andb_prop in V as [Va Vl].
  rewrite (paso_avion_total _ _ _ Va). cbn [bind]. now apply IH.
Qed.

Lemma pasos_filas_estable s t l :
  forall b, filas_de_icao s (Avion_fisico b) <> [] ->
  filas_de_icao s (Avion_fisico (pasos t l b)) =
  filas_de_icao s (Avion_fisico b).
Proof.
  induction l as [|a l IH]; cbn; intros b Hne; [reflexivity|].
  fold (pasos t l (paso_puro t b a)).
  rewrite IH; rewrite (paso_filas_estable _ _ _ _ Hne); auto.
Qed.

Lemma pasos_unico t l :
  forall b, icao_unico b -> icao_unico (pasos t l b).
Proof.
  induction l as [|a l IH]; cbn; intros b Hu; [exact Hu|].
  apply IH. intros s. apply paso_filas_unico, Hu.
Qed.

Lemma pasos_presente s t l avion :
  In avion l -> retenido avion = true -> campo avion 0 = VText s ->
  forall b, filas_de_icao s (Avion_fisico (pasos t l b)) <> [].
Proof.
  induction l as [|a l IH]; cbn; intros Hin Hr Hs b; [contradiction|].
  fold (pasos t l (paso_puro t b a)).
  destruct Hin as [->|Hin].
  - rewrite pasos_filas_estable; now apply paso_filas_presente.
  - now apply IH.
Qed.

Lemma registro_valido_icao avion :
  registro_valido avion = true -> exists s, campo avion 0 = VText s.
Proof.
  destruct avion as [| | | | |l|]; try discriminate.
  destruct l as [|[| | | |icao| |] l]; try discriminate.
  intros _. now exists icao.
Qed.

Lemma snapshot_nuevo_enlace s t b avion :
  retenido avion = true -> campo avion 0 = VText s ->
  id_de_icao s (paso_puro t b avion) =
  Some (sn_Avion_fisico_id (snapshot_nuevo t b avion)).
Proof.
  intros Hr Hs. unfold id_de_icao, snapshot_nuevo. cbn [sn_Avion_fisico_id].
  rewrite paso_puro_Avion_fisico, Hs.
  pose proof (paso_filas_presente s t b avion Hr Hs) as Hne.
  rewrite paso_puro_Avion_fisico in Hne. unfold filas_de_icao in Hne.
  rewrite find_filter.
  destruct (filter _ _); [congruence | reflexivity].
Qed.

Lemma id_de_icao_filas s b b' :
  filas_de_icao s (Avion_fisico b') = filas_de_icao s (Avion_fisico b) ->
  id_de_icao s b' = id_de_icao s b.
Proof.
  unfold id_de_icao, filas_de_icao. rewrite !find_filter. now intros ->.
Qed.

Lemma id_de_icao_Some s b k :
  id_de_icao s b = Some k -> filas_de_icao s (Avion_fisico b) <> [].
Proof.
  unfold id_de_icao, filas_de_icao. rewrite find_filter.
  destruct (filter _ _); cbn; congruence.
Qed.

Lemma pasos_Snapshots t l :
  forallb registro_valido l = true ->
  forall b, exists nuevos,
    Snapshots (pasos t l b) = Snapshots b ++ nuevos /\
    Forall2 (snapshot_de t (pasos t l b)) nuevos (filter retenido l).
Proof.
  induction l as [|a l IH]; cbn [forallb filter]; intros V b.
  - exists []. cbn. rewrite app_nil_r. split; [reflexivity | constructor].
  - apply andb_prop in V as [Va Vl].
    destruct (IH Vl (paso_puro t b a)) as (nuevos & Hs & Hf).
    change (pasos t (a :: l) b) with (pasos t l (paso_puro t b a)).
    rewrite Hs, paso_puro_Snapshots.
    destruct (retenido a) eqn:Hr.
    + exists (snapshot_nuevo t b a :: nuevos). rewrite <- app_assoc.
      split; [reflexivity|]. constructor; [|exact Hf].
      split; [reflexivity|].
      destruct (registro_valido_icao _ Va) as [s Hi]. exists s. split; [exact Hi|].
      rewrite <- (snapshot_nuevo_enlace s t b a Hr Hi).
      apply id_de_icao_filas, pasos_filas_estable.
      now apply paso_filas_presente.
    + exists nuevos. rewrite app_nil_r. split; [reflexivity | exact Hf].
Qed.


(** *** One run *)

Lemma registros_Some d l :
  registros d = Some l -> clave d "states" = Ok (JList l).
Proof.
  unfold registros. destruct (clave d "states") as [[| | | | |l'|]|]; try discriminate.
  now intros [= ->].
Qed.

Lemma corrida_pasos b e : exists l, corrida b e = pasos (snd e) l b.
Proof.
  unfold corrida, llenar_tabla_en_sqlite. destruct e as [d t]; cbn [fst snd].
  destruct (clave d "states") as [st|]; cbn [bind]; [|now exists []].
  destruct (truthy st); cbn [negb]; [|now exists []].
  destruct (iterar st) as [l|]; cbn [bind]; [|now exists []].
  destruct (recorrer t b l) as [b'|] eqn:E; cbn [bind]; [|now exists []].
  exists l. now apply recorrer_Ok.
Qed.

(** On a well-formed response the run returns, and it commits the store
    that the loop leaves. *)
Lemma llenar_valida d t b l :
  registros d = Some l -> forallb registro_valido l = true ->
  llenar_tabla_en_sqlite d t b =
  Ok (pasos t l b,
      match l with
      | [] => [Imprime msg_error_formato]
      | _ :: _ => [Commit; Imprime msg_tablas_llenadas]
      end).
Proof.
  intros Hr V. apply registros_Some in Hr.
  unfold llenar_tabla_en_sqlite. rewrite Hr. cbn [bind truthy].
  destruct l as [|a l]; [reflexivity|]. cbn [negb iterar bind].
  now rewrite (recorrer_total t _ V).
Qed.

Lemma corrida_valida d t b l :
  registros d = Some l -> forallb registro_valido l = true ->
  corrida b (d, t) = pasos t l b.
Proof.
  intros Hr V. unfold corrida. cbn [fst snd].
  now rewrite (llenar_valida d t b l Hr V).
Qed.

Lemma corrida_filas_estable s b e :
  filas_de_icao s (Avion_fisico b) <> [] ->
  filas_de_icao s (Avion_fisico (corrida b e)) =
  filas_de_icao s (Avion_fisico b).
Proof.
  destruct (corrida_pasos b e) as [l ->]. apply pasos_filas_estable.
Qed.

Lemma corrida_unico b e : icao_unico b -> icao_unico (corrida b e).
Proof.
  destruct (corrida_pasos b e) as [l ->]. apply pasos_unico.
Qed.

(** *** A sequence of runs *)

Lemma corridas_app es1 es2 b :
  corridas (es1 ++ es2) b = corridas es2 (corridas es1 b).
Proof. apply fold_left_app. Qed.

Lemma corridas_filas_estable s es :
  forall b, filas_de_icao s (Avion_fisico b) <> [] ->
  filas_de_icao s (Avion_fisico (corridas es b)) =
  filas_de_icao s (Avion_fisico b).
Proof.
  induction es as [|e es IH]; cbn; intros b Hne; [reflexivity|].
  fold (corridas es (corrida b e)).
  rewrite IH; rewrite (corrida_filas_estable _ _ _ Hne); auto.
Qed.

Lemma corridas_unico es : forall b, icao_unico b -> icao_unico (corridas es b).
Proof.
  induction es as [|e es IH]; cbn; intros b Hu; [exact Hu|].
  apply IH, corrida_unico, Hu.
Qed.

Lemma corrida_presente s b e :
  avista s e -> filas_de_icao s (Avion_fisico (corrida b e)) <> [].
Proof.
  destruct e as [d t]. unfold avista, entrada_valida, retenidos. cbn [fst].
  destruct (registros d) as [l|] eqn:Hr; [|intros [? _]; discriminate].
  intros (V & avion & Hin & Hs).
  rewrite (corrida_valida d t b l Hr V).
  apply filter_In in Hin as [Hin Hret].
  now apply (pasos_presente s t l avion).
Qed.

Lemma corridas_presente s es :
  Exists (avista s) es ->
  forall b, filas_de_icao s (Avion_fisico (corridas es b)) <> [].
Proof.
  induction 1 as [e es He | e es _ IH]; intros b; cbn;
    fold (corridas es (corrida b e)).
  - rewrite corridas_filas_estable; now apply corrida_presente.
  - apply IH.
Qed.

(** C1. After any sequence of runs in which some run retains a record with
    the icao [s], the identity table has exactly one row with that icao;
    and once a run has given [s] the id [k], every later run finds the same
    id for [s]. *)
Theorem identidad_unica_por_icao (es : list (json * Z)) (b : base) (s : string) :
  icao_unico b ->
  Exists (avista s) es ->
  List.length (filas_de_icao s (Avion_fisico (corridas es b))) = 1%nat /\
  forall es1 es2 k,
    es = es1 ++ es2 ->
    id_de_icao s (corridas es1 b) = Some k ->
    id_de_icao s (corridas es b) = Some k.
Proof.
  intros Hu Hex. split.
  - pose proof (corridas_unico es b Hu s) as Hle.
    pose proof (corridas_presente s es Hex b) as Hne.
    destruct (filas_de_icao s _) as [|r [|r' rs]]; cbn in *; [congruence | reflexivity | lia].
  - intros es1 es2 k -> Hk. rewrite corridas_app.
    rewrite <- Hk. apply id_de_icao_filas, corridas_filas_estable.
    exact (id_de_icao_Some _ _ _ Hk).
Qed.

(** C10. A run leaves the identity row of an icao that is already known
    as it is: after the run the rows with that icao are that one row, with
    the id, call sign and country it had. *)
Theorem fila_existente_intacta (b : base) (e : json * Z) (r : fila_avion) (s : string) :
  icao_unico b ->
  In r (Avion_fisico b) ->
  av_icao r = VText s ->
  filas_de_icao s (Avion_fisico (corrida b e)) = [r].
Proof.
  intros Hu Hin Hs.
  assert (In r (filas_de_icao s (Avion_fisico b))) as Hf.
  { apply filter_In. split; [exact Hin|].
    unfold tiene_icao. rewrite Hs. cbn. apply String.eqb_refl. }
  assert (filas_de_icao s (Avion_fisico b) = [r]) as Heq.
  { specialize (Hu s). destruct (filas_de_icao s (Avion_fisico b)) as [|x [|y ys]];
      cbn in *; [contradiction | | lia].
    destruct Hf as [->|[]]. reflexivity. }
  rewrite corrida_filas_estable; [exact Heq | rewrite Heq; discriminate].
Qed.

(** C6. [N] runs over well-formed responses that each retain [M] records
    add exactly [N * M] snapshot rows, after the rows that were there,
    which stay as they were. *)
Theorem snapshots_acumulados (es : list (json * Z)) (M : nat) :
  Forall (fun e => entrada_valida (fst e) = true /\
                   List.length (retenidos (fst e)) = M) es ->
  forall b, exists nuevos,
    Snapshots (corridas es b) = Snapshots b ++ nuevos /\
    List.length nuevos = (List.length es * M)%nat.
Proof.
  induction 1 as [|[d t] es [V HM] _ IH]; intros b.
  - exists []. cbn. now rewrite app_nil_r.
  - cbn [fst] in V, HM. cbn [corridas fold_left].
    fold (corridas es (corrida b (d, t))).
    destruct (IH (corrida b (d, t))) as (n2 & H2 & L2).
    unfold entrada_valida in V. unfold retenidos in HM.
    destruct (registros d) as [l|] eqn:Hr; [|discriminate V].
    rewrite (corrida_valida d t b l Hr V) in *.
    destruct (pasos_Snapshots t l V b) as (n1 & H1 & F1).
    exists (n1 ++ n2). rewrite H2, H1, <- app_assoc. split; [reflexivity|].
    rewrite length_app, L2, (Forall2_length F1), HM. cbn. lia.
Qed.

Lemma pasos_sin_retenidos t l :
  filter retenido l = [] -> forall b, pasos t l b = b.
Proof.
  induction l as [|a l IH]; cbn; intros Hf b; [reflexivity|].
  fold (pasos t l (paso_puro t b a)). unfold paso_puro.
  destruct (retenido a); [discriminate Hf | now apply IH].
Qed.

Lemma retenido_exacto avion :
  retenido avion = true <-> indice avion 2 = Ok (JStr "Mexico").
Proof.
  unfold retenido. destruct (indice avion 2) as [p|e].
  - destruct p; cbn; split; intros H; try discriminate H.
    + apply String.eqb_eq in H. now subst.
    + inversion H. reflexivity.
  - split; discriminate.
Qed.


(** C7, as the code has it.  When a well-formed response retains no
    record, the run returns without raising and leaves the store as it was;
    it prints the format-error line when the list is empty, and commits
    and prints the tables-filled line otherwise. *)
Theorem sin_retenidos (d : json) (t : Z) (b : base) (l : list json) :
  registros d = Some l ->
  forallb registro_valido l = true ->
  filter retenido l = [] ->
  llenar_tabla_en_sqlite d t b =
  Ok (b, match l with
         | [] => [Imprime msg_error_formato]
         | _ :: _ => [Commit; Imprime msg_tablas_llenadas]
         end).
Proof.
  intros Hr V Hf. rewrite (llenar_valida d t b l Hr V).
  now rewrite (pasos_sin_retenidos t l Hf).
Qed.

(** * Properties of the distance pass *)

Section Pase.
Context {F : Type} {A : Aritmetica F}.

Lemma recorrer_trayectorias_filas (l : list (fila_trayectoria F)) :
  Forall (fun r => exists d, distancia_de_fila r = Ok d) l ->
  forall t, recorrer_trayectorias l t =
            Ok (map (fun r => fold_left paso_fila l r) t).
Proof.
  induction 1 as [|a l [d Hd] _ IH]; intros t; cbn [recorrer_trayectorias].
  - cbn. now rewrite map_id.
  - rewrite Hd. cbn [bind]. rewrite IH. unfold update_distancia.
    rewrite map_map. f_equal. apply map_ext. intros r. cbn [fold_left].
    unfold paso_fila at 3. now rewrite Hd.
Qed.





End Pase.

(** *** The pass over exact reals *)









(** *** The pass over IEEE doubles *)

(** C3 fails on the code.  The sum is handed to [acos] as it is: for a
    row whose start and end are both the position (19.005, -99.1332), the
    IEEE sum of the products is 1.0000000000000002, the arc cosine of the C
    library is NaN, and the pass raises ValueError instead of writing
    0.00. *)
Theorem coordenadas_identicas_lanzan (p : plataforma) (id : option Z) :
  c_sin p radianes_latitud = seno_latitud ->
  c_cos p radianes_latitud = coseno_latitud ->
  c_cos p 0%float = 1%float ->
  PrimFloat.is_nan (c_acos p 0x1.0000000000001p+0%float) = true ->
  distancia_de_fila (A := aritmetica_doble p)
    (fila_doble id latitud_ejemplo longitud_ejemplo latitud_ejemplo longitud_ejemplo)
    = Err ValueError /\
  calcular_distancias_trayectorias (A := aritmetica_doble p)
    (Some [fila_doble id latitud_ejemplo longitud_ejemplo
                         latitud_ejemplo longitud_ejemplo])
    = Err ValueError.
Proof.
  intros Hs Hc H0 Ha.
  assert (distancia_de_fila (A := aritmetica_doble p)
            (fila_doble id latitud_ejemplo longitud_ejemplo
                           latitud_ejemplo longitud_ejemplo)
          = Err ValueError) as Hd.
  { unfold distancia_de_fila, fila_doble, radians.
    cbn [tr_lat_inicio tr_lon_inicio tr_lat_fin tr_lon_fin bind].
    cbn [math_radians aritmetica_doble].
    change (PrimFloat.mul latitud_ejemplo (PrimFloat.div pi_doble 180))
      with radianes_latitud.
    unfold distancia_km.
    cbn [math_sin math_cos math_acos resta suma producto aritmetica_doble].
    change (PrimFloat.sub
              (PrimFloat.mul longitud_ejemplo (PrimFloat.div pi_doble 180))
              (PrimFloat.mul longitud_ejemplo (PrimFloat.div pi_doble 180)))
      with 0%float.
    unfold math_1 at 1 2 3 4 5. rewrite Hs, Hc, H0. cbn [bind].
    change (PrimFloat.is_nan seno_latitud) with false.
    change (PrimFloat.is_nan coseno_latitud) with false.
    change (PrimFloat.is_nan 1) with false.
    change (PrimFloat.is_infinity seno_latitud) with false.
    change (PrimFloat.is_infinity coseno_latitud) with false.
    change (PrimFloat.is_infinity 1) with false.
    cbn [andb bind].
    change (PrimFloat.add (PrimFloat.mul seno_latitud seno_latitud)
              (PrimFloat.mul (PrimFloat.mul coseno_latitud coseno_latitud) 1))
      with 0x1.0000000000001p+0%float.
    unfold math_1. rewrite Ha. reflexivity. }
  split; [exact Hd|].
  unfold calcular_distancias_trayectorias, recorrer_trayectorias.
  now rewrite Hd.
Qed.

Lemma coordenadas_identicas_lanzan_witness :
  c_sin plataforma_tabla radianes_latitud = seno_latitud /\
  c_cos plataforma_tabla radianes_latitud = coseno_latitud /\
  c_cos plataforma_tabla 0%float = 1%float /\
  PrimFloat.is_nan (c_acos plataforma_tabla 0x1.0000000000001p+0%float) = true /\
  calcular_distancias_trayectorias (A := aritmetica_doble plataforma_tabla)
    (Some [fila_doble (Some 7) latitud_ejemplo longitud_ejemplo
                               latitud_ejemplo longitud_ejemplo])
    = Err ValueError.
Proof.
  do 4 (split; [vm_compute; reflexivity|]).
  apply (coordenadas_identicas_lanzan plataforma_tabla (Some 7));
    vm_compute; reflexivity.
Defined.


(** The example table after the pass: 20015.09 for the antipodes and 0.0
    for a point and itself. *)
Example tabla_ejemplo_calculada :
  calcular_distancias_trayectorias (A := aritmetica_doble plataforma_tabla)
    (Some tabla_ejemplo) =
  Ok ([ con_distancia (VReal 0x1.38bc5c28f5c29p+14%float) (fila_doble (Some 1) 0 0 0 180);
        con_distancia (VReal 0%float) (fila_doble (Some 2) 0 0 0 0) ],
      [Commit; Imprime msg_columna_agregada]).
Proof. vm_compute. reflexivity. Qed.

(** * Properties of the two [main] *)

Ltac desplegar :=
  unfold ejecutar, Ingest.main, Compute.main,
    Ingest.obtener_credenciales_de_json, Ingest.obtener_token,
    Ingest.llamar_al_endpoint, Ingest.sin_states,
    luego, hace, print, exit, ret, propaga, lee_archivo, escribe_archivo.

(** C8. When the credentials and the token are in order and the fetch
    yields nothing, an empty value or an object without "states", [main]
    prints that no flight information was obtained and leaves through
    [exit()]: nothing is raised, the database is neither opened nor
    changed. *)
Theorem respuesta_sin_states_sale (env : entorno) (a : option base) :
  credenciales_y_token env = true ->
  respuesta_sin_states (states_endpoint env) = true ->
  exists tr,
    ejecutar (Ingest.main env) a =
      ({| traza := tr ++ [Imprime Ingest.msg_sin_vuelos]; archivo := a |}, Exit) /\
    existsb toca_base tr = false.
Proof.
  destruct env as [av cred tok st rel].
  unfold credenciales_y_token, respuesta_sin_states.
  cbn [credentials_json token_endpoint states_endpoint].
  intros Hc Hs.
  destruct cred as [[c|]|]; try discriminate Hc.
  destruct tok as [| |[r|]]; try discriminate Hc.
  destruct (clave c "clientId") as [id|] eqn:E1; [|discriminate Hc].
  destruct (clave c "clientSecret") as [secret|] eqn:E2; [|discriminate Hc].
  destruct (clave r "access_token") as [token|] eqn:E3; [|discriminate Hc].
  apply andb_prop in Hc as [Hc Ht]. apply andb_prop in Hc as [Hi Hse].
  desplegar. cbn [credentials_json token_endpoint states_endpoint traza archivo].
  rewrite E1, E2, E3, Hi, Hse, Ht. cbn [negb orb app].
  destruct st as [| |[j|]]; try discriminate Hs.
  - exists [Abre_credenciales; Post_token; Get_states;
            Imprime Ingest.msg_timeout_endpoint].
    split; reflexivity.
  - exists [Abre_credenciales; Post_token; Get_states].
    split; [|reflexivity].
    destruct (truthy j) eqn:Ej; cbn [negb orb] in Hs |- *; [|reflexivity].
    destruct j as [| | | | | |d]; try discriminate Hs.
    cbn [contiene bind]. destruct (buscar "states" d); [discriminate Hs|].
    reflexivity.
Qed.

Lemma ingest_sin_ruta (env : entorno) (a : option base) :
  List.length (argv env) <> 2%nat ->
  existsb toca_base (traza (fst (ejecutar (Ingest.main env) a))) = false /\
  archivo (fst (ejecutar (Ingest.main env) a)) = a /\
  snd (ejecutar (Ingest.main env) a) <> Termina.
Proof.
  destruct env as [av cred tok st rel]. cbn [argv]. intros Hn.
  apply Nat.eqb_neq in Hn.
  desplegar. cbn [argv credentials_json token_endpoint states_endpoint reloj].
  rewrite Hn. cbn [negb].
  destruct cred as [[c|]|]; cbn; try (repeat split; discriminate).
  - destruct (clave c "clientId") as [id|]; cbn; try (repeat split; discriminate).
    destruct (clave c "clientSecret") as [secret|]; cbn;
      try (repeat split; discriminate).
    destruct (truthy id); cbn; try (repeat split; discriminate).
    destruct (truthy secret); cbn; try (repeat split; discriminate).
    destruct tok as [| |[r|]]; cbn; try (repeat split; discriminate).
    destruct (clave r "access_token") as [token|]; cbn;
      try (repeat split; discriminate).
    destruct (truthy token); cbn; try (repeat split; discriminate).
    destruct st as [| |[j|]]; cbn; try (repeat split; discriminate).
    destruct (truthy j); cbn; try (repeat split; discriminate).
    destruct (contiene "states" j) as [[|]|]; cbn; repeat split; discriminate.
Qed.

(** C9, as the code has it.  With an argument count other than one the
    distance job prints its usage line and leaves at once.  The ingestion
    job reads the credentials, asks for the token and fetches the states
    before it looks at the arguments: it never opens or changes the
    database and never runs to its end, and when those three steps succeed
    it prints its usage line and leaves. *)
Theorem argumentos_incorrectos {F : Type} {A : Aritmetica F}
    (env : entorno) (a : option base) (tabla : option (list (fila_trayectoria F))) :
  List.length (argv env) <> 2%nat ->
  ejecutar (Compute.main (argv env)) tabla =
    ({| traza := [Imprime Compute.msg_uso]; archivo := tabla |}, Exit) /\
  existsb toca_base (traza (fst (ejecutar (Ingest.main env) a))) = false /\
  archivo (fst (ejecutar (Ingest.main env) a)) = a /\
  snd (ejecutar (Ingest.main env) a) <> Termina /\
  (credenciales_y_token env = true ->
   respuesta_con_states (states_endpoint env) = true ->
   ejecutar (Ingest.main env) a =
     ({| traza := [Abre_credenciales; Post_token; Get_states;
                   Imprime Ingest.msg_uso];
         archivo := a |}, Exit)).
Proof.
  intros Hn. split; [|split; [|split; [|split]]];
    try now apply ingest_sin_ruta.
  - apply Nat.eqb_neq in Hn. desplegar. rewrite Hn. reflexivity.
  - destruct env as [av cred tok st rel]. cbn [argv] in Hn.
    apply Nat.eqb_neq in Hn.
    unfold credenciales_y_token, respuesta_con_states.
    cbn [credentials_json token_endpoint states_endpoint].
    intros Hc Hs.
    destruct cred as [[c|]|]; try discriminate Hc.
    destruct tok as [| |[r|]]; try discriminate Hc.
    destruct (clave c "clientId") as [id|] eqn:E1; [|discriminate Hc].
    destruct (clave c "clientSecret") as [secret|] eqn:E2; [|discriminate Hc].
    destruct (clave r "access_token") as [token|] eqn:E3; [|discriminate Hc].
    apply andb_prop in Hc as [Hc Ht]. apply andb_prop in Hc as [Hi Hse].
    destruct st as [| |[[| | | | | |d]|]]; try discriminate Hs.
    apply andb_prop in Hs as [Hd Hk].
    desplegar. cbn [argv credentials_json token_endpoint states_endpoint traza archivo].
    rewrite E1, E2, E3, Hi, Hse, Ht, Hd, Hn. cbn [negb orb app contiene bind].
    destruct (buscar "states" d); [reflexivity | discriminate Hk].
Qed.

(** * Concrete runs *)

(** A whole ingestion on a new database file: one identity row and one
    snapshot row, the record of another country left out. *)
Example ingestion_completa :
  ejecutar
    (Ingest.main
       (entorno_ejemplo ["Airplanes_ingest_flight_snapshots.py"; "vuelos.sqlite"]
          (Respuesta (Some (fst (hd (JNull, 0) corridas_ejemplo))))))
    None =
  ({| traza := [ Abre_credenciales; Post_token; Get_states;
                 Imprime "Estas usando la database: vuelos.sqlite";
                 Conecta "vuelos.sqlite"; Crea_tablas; Commit;
                 Imprime msg_tablas_llenadas; Cierra ];
      archivo := Some
        {| Avion_fisico := [fila_conocida]; sec_Avion_fisico := 1;
           Snapshots :=
             [ {| sn_id := 1; sn_Avion_fisico_id := 1;
                  sn_posicion_temporal := VInt 1700000000;
                  sn_tiempo_de_captura := 1700000010;
                  sn_longitud := VReal (-99.125)%float;
                  sn_latitud := VReal 19.4375%float;
                  sn_altitud := VReal 2240%float |} ];
           sec_Snapshots := 1 |} |},
   Termina).
Proof. vm_compute. reflexivity. Qed.

Lemma icao_unico_vacia : icao_unico base_vacia.
Proof. intros s. cbn. lia. Qed.

Lemma icao_unico_conocida : icao_unico base_conocida.
Proof.
  intros s. unfold filas_de_icao, base_conocida. cbn [Avion_fisico filter].
  destruct (tiene_icao (VText s) fila_conocida); cbn; lia.
Qed.

Lemma identidad_unica_por_icao_witness :
  icao_unico base_vacia /\
  Exists (avista "0d0a1b") corridas_ejemplo /\
  List.length
    (filas_de_icao "0d0a1b" (Avion_fisico (corridas corridas_ejemplo base_vacia)))
  = 1%nat /\
  id_de_icao "0d0a1b" (corridas corridas_ejemplo base_vacia) = Some 1.
Proof.
  assert (Exists (avista "0d0a1b") corridas_ejemplo) as Hex.
  { apply Exists_cons_hd. split; [vm_compute; reflexivity|].
    exists (avion_ejemplo "0d0a1b" "AMX001" "Mexico").
    split; [left; reflexivity | reflexivity]. }
  destruct (identidad_unica_por_icao corridas_ejemplo base_vacia "0d0a1b"
              icao_unico_vacia Hex) as [H1 H2].
  split; [exact icao_unico_vacia|]. split; [exact Hex|]. split; [exact H1|].
  apply (H2 [hd (JNull, 0) corridas_ejemplo] (tl corridas_ejemplo)); reflexivity.
Defined.

Lemma fila_existente_intacta_witness :
  icao_unico base_conocida /\
  In fila_conocida (Avion_fisico base_conocida) /\
  av_icao fila_conocida = VText "0d0a1b" /\
  filas_de_icao "0d0a1b"
    (Avion_fisico
       (corrida base_conocida
          (respuesta_ejemplo [avion_ejemplo "0d0a1b" "AMX002" "Mexico"], 1700000070)))
  = [fila_conocida].
Proof.
  split; [exact icao_unico_conocida|].
  split; [left; reflexivity|]. split; [reflexivity|].
  apply fila_existente_intacta;
    [exact icao_unico_conocida | left; reflexivity | reflexivity].
Defined.

Lemma snapshots_acumulados_witness :
  Forall (fun e => entrada_valida (fst e) = true /\
                   List.length (retenidos (fst e)) = 1%nat) corridas_ejemplo /\
  exists nuevos,
    Snapshots (corridas corridas_ejemplo base_vacia) =
      Snapshots base_vacia ++ nuevos /\
    List.length nuevos = (List.length corridas_ejemplo * 1)%nat.
Proof.
  assert (Forall (fun e => entrada_valida (fst e) = true /\
                   List.length (retenidos (fst e)) = 1%nat) corridas_ejemplo) as H.
  { repeat constructor. }
  split; [exact H|].
  exact (snapshots_acumulados corridas_ejemplo 1 H base_vacia).
Defined.


Lemma sin_retenidos_witness :
  registros (respuesta_ejemplo [avion_ejemplo "a1b2c3" "UAL12" "United States"]) =
    Some [avion_ejemplo "a1b2c3" "UAL12" "United States"] /\
  forallb registro_valido [avion_ejemplo "a1b2c3" "UAL12" "United States"] = true /\
  filter retenido [avion_ejemplo "a1b2c3" "UAL12" "United States"] = [] /\
  llenar_tabla_en_sqlite
    (respuesta_ejemplo [avion_ejemplo "a1b2c3" "UAL12" "United States"])
    1700000010 base_conocida =
  Ok (base_conocida, [Commit; Imprime msg_tablas_llenadas]).
Proof.
  do 3 (split; [reflexivity|]).
  exact (sin_retenidos
           (respuesta_ejemplo [avion_ejemplo "a1b2c3" "UAL12" "United States"])
           1700000010 base_conocida
           [avion_ejemplo "a1b2c3" "UAL12" "United States"]
           eq_refl eq_refl eq_refl).
Defined.


(** The claim C7 fails on what is reported: a run that retains nothing
    prints the line of a run that stored rows, or the format-error line
    when the list is empty. *)
Lemma sin_retenidos_no_se_informa :
  llenar_tabla_en_sqlite
    (respuesta_ejemplo [avion_ejemplo "a1b2c3" "UAL12" "United States"])
    1700000010 base_vacia =
    Ok (base_vacia, [Commit; Imprime "Las tablas ha sido llenada con éxito"]) /\
  llenar_tabla_en_sqlite (respuesta_ejemplo []) 1700000010 base_vacia =
    Ok (base_vacia,
        [Imprime "Hay un error con el formato del archivo JSON que ha provocado que no podamos llenar la tabla."]) /\
  exists b',
    llenar_tabla_en_sqlite
      (respuesta_ejemplo [avion_ejemplo "0d0a1b" "AMX001" "Mexico"])
      1700000010 base_vacia =
      Ok (b', [Commit; Imprime "Las tablas ha sido llenada con éxito"]) /\
    List.length (Snapshots b') = 1%nat.
Proof.
  split; [vm_compute; reflexivity|]. split; [vm_compute; reflexivity|].
  eexists. split; [vm_compute; reflexivity | reflexivity].
Qed.

Lemma respuesta_sin_states_sale_witness :
  credenciales_y_token
    (entorno_ejemplo solo_el_script
       (Respuesta (Some (JDict [("error", JStr "rate limit")])))) = true /\
  respuesta_sin_states (Respuesta (Some (JDict [("error", JStr "rate limit")]))) = true /\
  exists tr,
    ejecutar
      (Ingest.main
         (entorno_ejemplo solo_el_script
            (Respuesta (Some (JDict [("error", JStr "rate limit")])))))
      (Some base_conocida) =
      ({| traza := tr ++ [Imprime Ingest.msg_sin_vuelos];
          archivo := Some base_conocida |}, Exit) /\
    existsb toca_base tr = false.
Proof.
  split; [reflexivity|]. split; [reflexivity|].
  exact (respuesta_sin_states_sale
           (entorno_ejemplo solo_el_script
              (Respuesta (Some (JDict [("error", JStr "rate limit")]))))
           (Some base_conocida) eq_refl eq_refl).
Defined.

(** The claim C9 fails for the ingestion job: without a path argument it
    has read the credentials and made both network calls when it prints its
    usage line; and without a credential file it leaves before the
    arguments are looked at, with no usage line. *)
Lemma ingest_valida_argumentos_al_final :
  ejecutar
    (Ingest.main
       (entorno_ejemplo solo_el_script
          (Respuesta (Some (respuesta_ejemplo [avion_ejemplo "0d0a1b" "AMX001" "Mexico"])))))
    None =
    ({| traza := [ Abre_credenciales; Post_token; Get_states;
                   Imprime Ingest.msg_uso ];
        archivo := None |}, Exit) /\
  ejecutar
    (Ingest.main
       {| argv := solo_el_script; credentials_json := None;
          token_endpoint := Tiempo_agotado; states_endpoint := Tiempo_agotado;
          reloj := 1700000010 |})
    None =
    ({| traza := [ Abre_credenciales; Imprime Ingest.msg_sin_credenciales ];
        archivo := None |}, Exit).
Proof. split; vm_compute; reflexivity. Qed.

Lemma argumentos_incorrectos_witness :
  List.length solo_el_script <> 2%nat /\
  ejecutar (Compute.main (A := aritmetica_doble plataforma_tabla) solo_el_script)
           (Some tabla_ejemplo) =
    ({| traza := [Imprime Compute.msg_uso]; archivo := Some tabla_ejemplo |}, Exit) /\
  existsb toca_base
    (traza (fst (ejecutar
                   (Ingest.main (entorno_ejemplo solo_el_script Tiempo_agotado))
                   (Some base_conocida)))) = false.
Proof.
  assert (List.length solo_el_script <> 2%nat) as Hn by (cbn; lia).
  split; [exact Hn|].
  destruct (argumentos_incorrectos (A := aritmetica_doble plataforma_tabla)
              (entorno_ejemplo solo_el_script Tiempo_agotado)
              (Some base_conocida) (Some tabla_ejemplo) Hn) as (H1 & H2 & _).
  split; [exact H1 | exact H2].
Defined.

(** * Further properties of the ingestion loop *)

Lemma retenido_pais avion :
  retenido avion = true -> campo avion 2 = VText "Mexico".
Proof.
  intros H. apply retenido_exacto in H. unfold campo. now rewrite H.
Qed.

Lemma pasos_solo_agrega t l :
  forall b, exists nuevas nuevos,
    Avion_fisico (pasos t l b) = Avion_fisico b ++ nuevas /\
    Snapshots (pasos t l b) = Snapshots b ++ nuevos /\
    Forall (fun r => av_pais_origen r = VText "Mexico") nuevas /\
    Forall (fun sn => sn_tiempo_de_captura sn = t) nuevos.
Proof.
  induction l as [|a l IH]; intros b.
  - exists [], []. cbn. rewrite !app_nil_r. repeat split; constructor.
  - destruct (IH (paso_puro t b a)) as (n1 & n2 & Ha & Hs & F1 & F2).
    change (pasos t (a :: l) b) with (pasos t l (paso_puro t b a)).
    rewrite Ha, Hs, paso_puro_Avion_fisico, paso_puro_Snapshots.
    unfold aviones_tras, primera_vez.
    destruct (retenido a) eqn:Hr; cbn [andb].
    + exists ((if negb (existsb (tiene_icao (campo a 0)) (Avion_fisico b))
               then [fila_nueva b a] else []) ++ n1),
             (snapshot_nuevo t b a :: n2).
      rewrite <- !app_assoc. repeat split; try reflexivity.
      * apply Forall_app. split; [|exact F1].
        destruct (negb _); constructor; [|constructor].
        cbn. now apply retenido_pais.
      * constructor; [reflexivity | exact F2].
    + exists n1, n2. rewrite !app_nil_r. repeat split; assumption.
Qed.

(** X1. Whatever the response, a run only appends: the rows of both
    tables stay as they were and in place, every identity row it adds has
    the country "Mexico", and every snapshot it adds carries the clock
    value of the run. *)
Theorem corrida_solo_agrega (b : base) (e : json * Z) :
  exists nuevas nuevos,
    Avion_fisico (corrida b e) = Avion_fisico b ++ nuevas /\
    Snapshots (corrida b e) = Snapshots b ++ nuevos /\
    Forall (fun r => av_pais_origen r = VText "Mexico") nuevas /\
    Forall (fun sn => sn_tiempo_de_captura sn = snd e) nuevos.
Proof.
  destruct (corrida_pasos b e) as [l ->]. apply pasos_solo_agrega.
Qed.

(** *** Keys and references *)

Lemma maximo_cota (ids : list Z) :
  Forall (fun i => i <= fold_right Z.max 0 ids) ids.
Proof.
  induction ids as [|i ids IH]; constructor; cbn; [lia|].
  eapply Forall_impl; [|exact IH]. cbn. intros; lia.
Qed.

Lemma siguiente_id_nuevo (ids : list Z) (sec : Z) :
  sec < siguiente_id ids sec /\ Forall (fun i => i < siguiente_id ids sec) ids.
Proof.
  unfold siguiente_id. split; [lia|].
  eapply Forall_impl; [|apply maximo_cota]. cbn. intros; lia.
Qed.

Lemma llaves_tras_insertar {A : Type} (f : A -> Z) (l nuevos : list A) (sec : Z) :
  NoDup (map f l) ->
  Forall (fun x => f x <= sec) l ->
  (nuevos = [] \/ exists x, nuevos = [x] /\ f x = siguiente_id (map f l) sec) ->
  NoDup (map f (l ++ nuevos)) /\
  Forall (fun x => f x <= siguiente_id (map f l) sec) (l ++ nuevos).
Proof.
  intros Hnd Hle Hn.
  destruct (siguiente_id_nuevo (map f l) sec) as [Hs Hi].
  assert (Forall (fun x => f x <= siguiente_id (map f l) sec) l) as Hle'.
  { eapply Forall_impl; [|exact Hle]. cbn. intros; lia. }
  destruct Hn as [->|(x & -> & Hx)].
  - rewrite app_nil_r. now split.
  - split.
    + rewrite map_app. apply NoDup_app; [exact Hnd | repeat constructor; auto |].
      intros i Hin [Hi'|[]]. rewrite Forall_forall in Hi.
      specialize (Hi i Hin). cbn in Hi'. lia.
    + apply Forall_app. split; [exact Hle'|]. repeat constructor. lia.
Qed.

(** A turn that returns has found the identity row that its snapshot
    refers to. *)
Lemma paso_avion_Ok_enlace t b avion b' :
  paso_avion t b avion = Ok b' -> retenido avion = true ->
  In (sn_Avion_fisico_id (snapshot_nuevo t b avion))
     (map av_id (aviones_tras b avion)).
Proof.
  unfold paso_avion, snapshot_nuevo, aviones_tras, primera_vez, fila_nueva,
    retenido, campo.
  intros H Hr.
  destruct (indice avion 2) as [pais|] eqn:E2; cbn [bind] in H; [ | discriminate H ].
  rewrite Hr in H |- *. cbn [negb] in H.
  destruct (indice avion 0) as [icao|] eqn:E0; cbn [bind] in H; [ | discriminate H ].
  destruct (indice avion 1) as [cs|] eqn:E1; cbn [bind] in H; [ | discriminate H ].
  destruct (indice avion 3) as [pt|] eqn:E3; cbn [bind] in H; [ | discriminate H ].
  destruct (indice avion 5) as [lo|] eqn:E5; cbn [bind] in H; [ | discriminate H ].
  destruct (indice avion 6) as [la|] eqn:E6; cbn [bind] in H; [ | discriminate H ].
  destruct (indice avion 7) as [al|] eqn:E7; cbn [bind] in H; [ | discriminate H ].
  unfold insert_or_ignore_Avion_fisico, select_id_Avion_fisico in H.
  unfold valor_de.
  destruct (enlazar icao) as [I|] eqn:B0; cbn [bind] in H; [ | discriminate H ].
  destruct (enlazar cs) as [C|] eqn:B1; cbn [bind] in H; [ | discriminate H ].
  destruct (enlazar pais) as [P|] eqn:B2; cbn [bind] in H; [ | discriminate H ].
  cbn [Avion_fisico sec_Avion_fisico Snapshots sec_Snapshots] in H.
  cbn [andb sn_Avion_fisico_id].
  destruct (existsb (tiene_icao I) (Avion_fisico b)); cbn [negb] in *;
    [rewrite app_nil_r|];
    (destruct (find (tiene_icao I) _) as [r|] eqn:Ef; cbn [option_map bind] in H;
       [ | discriminate H ]);
    apply find_some in Ef as [Hin _]; now apply in_map.
Qed.

Lemma paso_avion_integra t b avion b' :
  paso_avion t b avion = Ok b' -> integra b -> integra b'.
Proof.
  intros H (Ha1 & Ha2 & Hs1 & Hs2 & Href).
  pose proof (paso_avion_Ok _ _ _ _ H) as ->.
  unfold paso_puro. destruct (retenido avion) eqn:Hr;
    [|repeat split; assumption].
  pose proof (paso_avion_Ok_enlace _ _ _ _ H Hr) as Hen.
  assert (exists nuevas, aviones_tras b avion = Avion_fisico b ++ nuevas /\
            (nuevas = [] \/ exists x, nuevas = [x] /\
               av_id x = siguiente_id (map av_id (Avion_fisico b))
                                      (sec_Avion_fisico b)))
    as (nuevas & Hat & Hn).
  { unfold aviones_tras. destruct (primera_vez b avion).
    - eexists. split; [reflexivity|]. right. eexists. split; reflexivity.
    - eexists. split; [reflexivity|]. now left. }
  destruct (llaves_tras_insertar av_id _ nuevas _ Ha1 Ha2 Hn) as [Ka Kb].
  destruct (llaves_tras_insertar sn_id (Snapshots b)
              [snapshot_nuevo t b avion] _ Hs1 Hs2) as [Kc Kd].
  { right. eexists. split; reflexivity. }
  unfold integra. cbn [Avion_fisico sec_Avion_fisico Snapshots sec_Snapshots].
  rewrite Hat. repeat split; try assumption.
  apply Forall_app. split.
  - eapply Forall_impl; [|exact Href]. cbn. intros s Hin.
    rewrite map_app. apply in_or_app. now left.
  - constructor; [|constructor]. now rewrite <- Hat.
Qed.

Lemma recorrer_integra t l :
  forall b b', recorrer t b l = Ok b' -> integra b -> integra b'.
Proof.
  induction l as [|a l IH]; cbn; intros b b' H Hi.
  - now inversion H; subst.
  - destruct (paso_avion t b a) as [b1|] eqn:E; cbn [bind] in H; [|discriminate H].
    eapply IH; [exact H|]. eapply paso_avion_integra; eassumption.
Qed.

(** X2. A run keeps the store sound whatever the response: the ids of
    each table stay distinct and not above the table's sequence, and every
    snapshot refers to the id of an identity row. *)
Theorem corrida_integra (b : base) (e : json * Z) :
  integra b -> integra (corrida b e).
Proof.
  intros Hi. unfold corrida, llenar_tabla_en_sqlite.
  destruct (clave (fst e) "states") as [st|]; cbn [bind]; [|exact Hi].
  destruct (truthy st); cbn [negb]; [|exact Hi].
  destruct (iterar st) as [l|]; cbn [bind]; [|exact Hi].
  destruct (recorrer (snd e) b l) as [b'|] eqn:E; cbn [bind]; [|exact Hi].
  eapply recorrer_integra; eassumption.
Qed.

Lemma integra_vacia : integra base_vacia.
Proof. repeat split; constructor. Qed.

Lemma corrida_integra_witness :
  integra base_vacia /\
  integra (corrida base_vacia (hd (JNull, 0) corridas_ejemplo)).
Proof.
  split; [exact integra_vacia|].
  exact (corrida_integra base_vacia (hd (JNull, 0) corridas_ejemplo) integra_vacia).
Defined.

(** *** Records that make the loop raise *)

Lemma recorrer_falla t l1 avion l2 e :
  forallb registro_valido l1 = true ->
  forall b, paso_avion t (pasos t l1 b) avion = Err e ->
  recorrer t b (l1 ++ avion :: l2) = Err e.
Proof.
  induction l1 as [|a l1 IH]; cbn [forallb app recorrer]; intros V b H.
  - cbn in H. now rewrite H.
  - apply andb_prop in V as [Va Vl].
    rewrite (paso_avion_total _ _ _ Va). cbn [bind]. now apply IH.
Qed.

Lemma llenar_falla d t b l1 avion l2 e :
  registros d = Some (l1 ++ avion :: l2) ->
  forallb registro_valido l1 = true ->
  paso_avion t (pasos t l1 b) avion = Err e ->
  llenar_tabla_en_sqlite d t b = Err e.
Proof.
  intros Hr V H. apply registros_Some in Hr.
  unfold llenar_tabla_en_sqlite. rewrite Hr. cbn [bind truthy].
  destruct (l1 ++ avion :: l2) as [|x xs] eqn:El.
  - now destruct l1.
  - cbn [negb iterar bind]. rewrite <- El.
    now rewrite (recorrer_falla t l1 avion l2 e V b H).
Qed.

Lemma registro_corto t b l :
  nth_error l 2 = Some (JStr "Mexico") -> (List.length l < 8)%nat ->
  paso_avion t b (JList l) = Err IndexError.
Proof.
  intros Hp Hl.
  destruct l as [|x0 [|x1 [|x2 [|x3 [|x4 [|x5 [|x6 [|x7 l]]]]]]]];
    cbn in Hp, Hl; try discriminate Hp; try lia;
    injection Hp as ->; reflexivity.
Qed.

(** X3. A record of a Mexican aircraft with fewer than eight positions
    makes the run raise IndexError before [commit()], also when the records
    before it were stored: the database keeps what it held before the
    run. *)
Theorem registro_corto_lanza (d : json) (t : Z) (b : base)
    (l1 l l2 : list json) :
  registros d = Some (l1 ++ JList l :: l2) ->
  forallb registro_valido l1 = true ->
  nth_error l 2 = Some (JStr "Mexico") ->
  (List.length l < 8)%nat ->
  llenar_tabla_en_sqlite d t b = Err IndexError /\ corrida b (d, t) = b.
Proof.
  intros Hr V Hp Hl.
  assert (llenar_tabla_en_sqlite d t b = Err IndexError) as H.
  { eapply llenar_falla; [exact Hr | exact V |]. now apply registro_corto. }
  split; [exact H|]. unfold corrida. cbn [fst snd]. now rewrite H.
Qed.

Lemma registro_corto_lanza_witness :
  llenar_tabla_en_sqlite
    (respuesta_ejemplo
       [ avion_ejemplo "0d0a1b" "AMX001" "Mexico";
         JList [JStr "0d0a2c"; JStr "VOI77"; JStr "Mexico"; JInt 1700000000] ])
    1700000010 base_vacia = Err IndexError /\
  corrida base_vacia
    (respuesta_ejemplo
       [ avion_ejemplo "0d0a1b" "AMX001" "Mexico";
         JList [JStr "0d0a2c"; JStr "VOI77"; JStr "Mexico"; JInt 1700000000] ],
     1700000010) = base_vacia.
Proof.
  apply (registro_corto_lanza _ 1700000010 base_vacia
           [avion_ejemplo "0d0a1b" "AMX001" "Mexico"]
           [JStr "0d0a2c"; JStr "VOI77"; JStr "Mexico"; JInt 1700000000] []);
    [reflexivity | reflexivity | reflexivity | cbn; lia].
Defined.

Lemma sin_icao_nulo (l : list fila_avion) :
  existsb (tiene_icao VNull) l = false /\ find (tiene_icao VNull) l = None.
Proof.
  assert (forall r, tiene_icao VNull r = false) as Hn.
  { intros r. unfold tiene_icao. now destruct (av_icao r). }
  induction l as [|r l [IH1 IH2]]; [now split|].
  cbn. rewrite Hn. now split.
Qed.

Lemma icao_nulo t b call_sign posicion x lon lat alt resto :
  enlazable call_sign = true ->
  paso_avion t b
    (JList (JNull :: call_sign :: JStr "Mexico" :: posicion :: x :: lon :: lat
            :: alt :: resto)) = Err TypeError.
Proof.
  unfold enlazable. intros Hc.
  destruct (enlazar call_sign) as [C|] eqn:Ec; [|discriminate Hc].
  unfold paso_avion. cbn [indice nth_error bind igual_a_texto].
  change (String.eqb "Mexico" "Mexico") with true. cbn [negb].
  unfold insert_or_ignore_Avion_fisico, select_id_Avion_fisico.
  cbn [enlazar bind]. rewrite Ec. cbn [bind].
  cbn [Avion_fisico sec_Avion_fisico Snapshots sec_Snapshots].
  destruct (sin_icao_nulo (Avion_fisico b)) as [-> _].
  destruct (sin_icao_nulo
              (Avion_fisico b ++
               [{| av_id := siguiente_id (map av_id (Avion_fisico b))
                                         (sec_Avion_fisico b);
                   av_icao := VNull; av_call_sign := C;
                   av_pais_origen := VText "Mexico" |}])) as [_ ->].
  reflexivity.
Qed.

(** X4. A record of a Mexican aircraft whose icao is null makes the run
    raise TypeError: SQL equality never matches NULL, so the SELECT after
    the insert finds no row and [fetchone()] returns None.  Nothing of the
    run is committed. *)
Theorem icao_nulo_lanza (d : json) (t : Z) (b : base) (l1 l2 : list json)
    (call_sign posicion x lon lat alt : json) (resto : list json) :
  registros d =
    Some (l1 ++ JList (JNull :: call_sign :: JStr "Mexico" :: posicion :: x
                       :: lon :: lat :: alt :: resto) :: l2) ->
  forallb registro_valido l1 = true ->
  enlazable call_sign = true ->
  llenar_tabla_en_sqlite d t b = Err TypeError /\ corrida b (d, t) = b.
Proof.
  intros Hr V Hc.
  assert (llenar_tabla_en_sqlite d t b = Err TypeError) as H.
  { eapply llenar_falla; [exact Hr | exact V |]. now apply icao_nulo. }
  split; [exact H|]. unfold corrida. cbn [fst snd]. now rewrite H.
Qed.

Lemma icao_nulo_lanza_witness :
  llenar_tabla_en_sqlite
    (respuesta_ejemplo
       [ JList [ JNull; JStr "AMX001"; JStr "Mexico"; JInt 1700000000;
                 JInt 1700000003; JNull; JNull; JNull ] ])
    1700000010 base_conocida = Err TypeError /\
  corrida base_conocida
    (respuesta_ejemplo
       [ JList [ JNull; JStr "AMX001"; JStr "Mexico"; JInt 1700000000;
                 JInt 1700000003; JNull; JNull; JNull ] ],
     1700000010) = base_conocida.
Proof.
  apply (icao_nulo_lanza _ 1700000010 base_conocida [] []
           (JStr "AMX001") (JInt 1700000000) (JInt 1700000003)
           JNull JNull JNull []);
    reflexivity.
Defined.

(** * Further properties of the ingestion [main] *)

(** X5. Without the file [credentials.json], [main] prints that the file
    is missing and leaves through [exit()]: no network call is made and the
    database is not opened. *)
Theorem sin_credenciales_sale (env : entorno) (a : option base) :
  credentials_json env = None ->
  ejecutar (Ingest.main env) a =
    ({| traza := [Abre_credenciales; Imprime Ingest.msg_sin_credenciales];
        archivo := a |}, Exit).
Proof.
  destruct env as [av cred tok st rel]. cbn [credentials_json]. intros ->.
  reflexivity.
Qed.

Lemma sin_credenciales_sale_witness :
  ejecutar
    (Ingest.main
       {| argv := solo_el_script ++ ["vuelos.sqlite"]; credentials_json := None;
          token_endpoint := Sin_conexion; states_endpoint := Sin_conexion;
          reloj := 1700000010 |})
    (Some base_conocida) =
    ({| traza := [Abre_credenciales; Imprime Ingest.msg_sin_credenciales];
        archivo := Some base_conocida |}, Exit).
Proof. now apply sin_credenciales_sale. Defined.

(** X6. A credential file that is a JSON object without "clientId" or
    without "clientSecret" makes [main] end in an uncaught KeyError, before
    any network call: only the missing file is handled. *)
Theorem credenciales_sin_clave_lanza (env : entorno) (a : option base)
    (d : list (string * json)) :
  credentials_json env = Some (Some (JDict d)) ->
  buscar "clientId" d = None \/ buscar "clientSecret" d = None ->
  ejecutar (Ingest.main env) a =
    ({| traza := [Abre_credenciales]; archivo := a |}, Lanza KeyError).
Proof.
  destruct env as [av cred tok st rel]. cbn [credentials_json]. intros -> H.
  desplegar. cbn [credentials_json clave traza archivo app].
  destruct (buscar "clientId" d) as [id|]; [|reflexivity].
  destruct H as [H|H]; [discriminate H|]. now rewrite H.
Qed.

Lemma credenciales_sin_clave_lanza_witness :
  ejecutar
    (Ingest.main
       {| argv := solo_el_script ++ ["vuelos.sqlite"];
          credentials_json := Some (Some (JDict [("clientId", JStr "usuario")]));
          token_endpoint := Sin_conexion; states_endpoint := Sin_conexion;
          reloj := 1700000010 |})
    None =
    ({| traza := [Abre_credenciales]; archivo := None |}, Lanza KeyError).
Proof.
  apply (credenciales_sin_clave_lanza _ None [("clientId", JStr "usuario")]);
    [reflexivity | right; reflexivity].
Defined.

Lemma credenciales_validas_inv (env : entorno) :
  credenciales_validas env = true ->
  exists c id secret,
    credentials_json env = Some (Some c) /\
    clave c "clientId" = Ok id /\ clave c "clientSecret" = Ok secret /\
    truthy id = true /\ truthy secret = true.
Proof.
  unfold credenciales_validas.
  destruct (credentials_json env) as [[c|]|]; try discriminate.
  destruct (clave c "clientId") as [id|] eqn:E1; [|discriminate].
  destruct (clave c "clientSecret") as [secret|] eqn:E2; [|discriminate].
  intros H. apply andb_prop in H as [H1 H2]. now exists c, id, secret.
Qed.

(** X7. With the credentials in order, a token request that times out or
    cannot connect is reported with its own line and [main] leaves through
    [exit()]: the states are not fetched and the database is not opened. *)
Theorem token_sin_respuesta_sale (env : entorno) (a : option base) :
  credenciales_validas env = true ->
  token_endpoint env = Tiempo_agotado \/ token_endpoint env = Sin_conexion ->
  ejecutar (Ingest.main env) a =
    ({| traza := [ Abre_credenciales; Post_token;
                   Imprime (match token_endpoint env with
                            | Tiempo_agotado => Ingest.msg_timeout_token
                            | _ => Ingest.msg_sin_conexion
                            end) ];
        archivo := a |}, Exit).
Proof.
  intros Hc Ht.
  destruct (credenciales_validas_inv env Hc) as (c & id & s & E0 & E1 & E2 & T1 & T2).
  destruct env as [av cred tok st rel].
  cbn [credentials_json token_endpoint] in *. subst cred.
  desplegar. cbn [credentials_json token_endpoint traza archivo].
  rewrite E1, E2, T1, T2. cbn [negb orb app].
  destruct Ht as [->| ->]; reflexivity.
Qed.

Lemma token_sin_respuesta_sale_witness :
  ejecutar
    (Ingest.main
       {| argv := solo_el_script ++ ["vuelos.sqlite"];
          credentials_json := credentials_json (entorno_ejemplo [] Tiempo_agotado);
          token_endpoint := Sin_conexion; states_endpoint := Tiempo_agotado;
          reloj := 1700000010 |})
    (Some base_conocida) =
    ({| traza := [ Abre_credenciales; Post_token;
                   Imprime Ingest.msg_sin_conexion ];
        archivo := Some base_conocida |}, Exit).
Proof.
  apply (token_sin_respuesta_sale
           {| argv := solo_el_script ++ ["vuelos.sqlite"];
              credentials_json := credentials_json (entorno_ejemplo [] Tiempo_agotado);
              token_endpoint := Sin_conexion; states_endpoint := Tiempo_agotado;
              reloj := 1700000010 |});
    [reflexivity | right; reflexivity].
Defined.

(** X8. A token response that is a JSON object without "access_token",
    as an authentication error is, makes [main] end in an uncaught
    KeyError after the token request; the states are not fetched and the
    database is not opened. *)
Theorem token_sin_access_token_lanza (env : entorno) (a : option base)
    (d : list (string * json)) :
  credenciales_validas env = true ->
  token_endpoint env = Respuesta (Some (JDict d)) ->
  buscar "access_token" d = None ->
  ejecutar (Ingest.main env) a =
    ({| traza := [Abre_credenciales; Post_token]; archivo := a |}, Lanza KeyError).
Proof.
  intros Hc Ht Hk.
  destruct (credenciales_validas_inv env Hc) as (c & id & s & E0 & E1 & E2 & T1 & T2).
  destruct env as [av cred tok st rel].
  cbn [credentials_json token_endpoint] in *. subst cred tok.
  desplegar. cbn [credentials_json token_endpoint traza archivo clave].
  rewrite E1, E2, T1, T2, Hk. reflexivity.
Qed.

Lemma token_sin_access_token_lanza_witness :
  ejecutar
    (Ingest.main
       {| argv := solo_el_script ++ ["vuelos.sqlite"];
          credentials_json := credentials_json (entorno_ejemplo [] Tiempo_agotado);
          token_endpoint :=
            Respuesta (Some (JDict [("error", JStr "invalid_client")]));
          states_endpoint := Tiempo_agotado;
          reloj := 1700000010 |})
    None =
    ({| traza := [Abre_credenciales; Post_token]; archivo := None |},
     Lanza KeyError).
Proof.
  apply (token_sin_access_token_lanza _ None [("error", JStr "invalid_client")]);
    reflexivity.
Defined.

Lemma credenciales_y_token_inv (env : entorno) :
  credenciales_y_token env = true ->
  exists c r id secret token,
    credentials_json env = Some (Some c) /\
    token_endpoint env = Respuesta (Some r) /\
    clave c "clientId" = Ok id /\ clave c "clientSecret" = Ok secret /\
    clave r "access_token" = Ok token /\
    truthy id = true /\ truthy secret = true /\ truthy token = true.
Proof.
  unfold credenciales_y_token.
  destruct (credentials_json env) as [[c|]|]; try discriminate.
  destruct (token_endpoint env) as [| |[r|]]; try discriminate.
  destruct (clave c "clientId") as [id|] eqn:E1; [|discriminate].
  destruct (clave c "clientSecret") as [secret|] eqn:E2; [|discriminate].
  destruct (clave r "access_token") as [token|] eqn:E3; [|discriminate].
  intros H. apply andb_prop in H as [H H3]. apply andb_prop in H as [H1 H2].
  now exists c, r, id, secret, token.
Qed.

(** X9. A connection error in the fetch of the states is not caught,
    unlike the one of the token request: [main] ends in an uncaught
    ConnectionError, with the database not opened. *)
Theorem fetch_sin_conexion_lanza (env : entorno) (a : option base) :
  credenciales_y_token env = true ->
  states_endpoint env = Sin_conexion ->
  ejecutar (Ingest.main env) a =
    ({| traza := [Abre_credenciales; Post_token; Get_states]; archivo := a |},
     Lanza ConnectionError).
Proof.
  intros Hc Hs.
  destruct (credenciales_y_token_inv env Hc)
    as (c & r & id & s & tk & E0 & Et & E1 & E2 & E3 & T1 & T2 & T3).
  destruct env as [av cred tok st rel].
  cbn [credentials_json token_endpoint states_endpoint] in *. subst cred tok st.
  desplegar. cbn [credentials_json token_endpoint states_endpoint traza archivo].
  rewrite E1, E2, E3, T1, T2, T3. reflexivity.
Qed.

Lemma fetch_sin_conexion_lanza_witness :
  ejecutar
    (Ingest.main (entorno_ejemplo (solo_el_script ++ ["vuelos.sqlite"]) Sin_conexion))
    (Some base_conocida) =
    ({| traza := [Abre_credenciales; Post_token; Get_states];
        archivo := Some base_conocida |}, Lanza ConnectionError).
Proof. apply fetch_sin_conexion_lanza; reflexivity. Defined.

(** X10. [main] reaches the database only when everything before it went
    well: if it connects, creates the tables, commits or closes, then there
    was exactly one argument, the credentials and the token were in order,
    and the fetch gave a truthy value that contains "states". *)
Theorem base_solo_si_todo_en_orden (env : entorno) (a : option base) :
  existsb toca_base (traza (fst (ejecutar (Ingest.main env) a))) = true ->
  List.length (argv env) = 2%nat /\
  credenciales_y_token env = true /\
  exists j, states_endpoint env = Respuesta (Some j) /\
            Ingest.sin_states j = Ok false.
Proof.
  destruct env as [av cred tok st rel].
  unfold credenciales_y_token.
  cbn [argv credentials_json token_endpoint states_endpoint].
  desplegar. cbn [argv credentials_json token_endpoint states_endpoint reloj].
  destruct cred as [[c|]|]; cbn; try discriminate.
  destruct (clave c "clientId") as [id|]; cbn; try discriminate.
  destruct (clave c "clientSecret") as [secret|]; cbn; try discriminate.
  destruct (truthy id); cbn; try discriminate.
  destruct (truthy secret); cbn; try discriminate.
  destruct tok as [| |[r|]]; cbn; try discriminate.
  destruct (clave r "access_token") as [token|]; cbn; try discriminate.
  destruct (truthy token); cbn; try discriminate.
  destruct st as [| |[j|]]; cbn; try discriminate.
  destruct (truthy j) eqn:Ej; cbn; try discriminate.
  destruct (contiene "states" j) as [[|]|] eqn:Ec; cbn; try discriminate.
  destruct (Nat.eqb (List.length av) 2) eqn:En; cbn; try discriminate.
  intros _. apply Nat.eqb_eq in En. repeat split; [exact En|].
  exists j. split; [reflexivity|].
  unfold Ingest.sin_states. rewrite Ej, Ec. reflexivity.
Qed.

Lemma base_solo_si_todo_en_orden_witness :
  existsb toca_base
    (traza (fst (ejecutar
       (Ingest.main
          (entorno_ejemplo (solo_el_script ++ ["vuelos.sqlite"])
             (Respuesta (Some (respuesta_ejemplo []))))) None))) = true /\
  credenciales_y_token
    (entorno_ejemplo (solo_el_script ++ ["vuelos.sqlite"])
       (Respuesta (Some (respuesta_ejemplo [])))) = true.
Proof.
  split; [reflexivity|].
  exact (proj1 (proj2 (base_solo_si_todo_en_orden
           (entorno_ejemplo (solo_el_script ++ ["vuelos.sqlite"])
              (Respuesta (Some (respuesta_ejemplo [])))) None eq_refl))).
Defined.

Lemma hace_todos {S : Type} (hecho : list evento) :
  forall m : mundo S,
    fold_right (fun e k => hace e ;;; k) (ret tt) hecho m =
    ({| traza := traza m ++ hecho; archivo := archivo m |}, Sigue tt).
Proof.
  induction hecho as [|e hecho IH]; intros m.
  - cbn. rewrite app_nil_r. now destruct m.
  - cbn [fold_right]. unfold luego at 1, hace at 1. rewrite IH.
    cbn [traza archivo]. now rewrite <- app_assoc.
Qed.

(** [main] from the fetch on, when everything before the call of
    [llenar_tabla_en_sqlite] went well. *)
Lemma main_hasta_llenar (env : entorno) (a : option base)
    (script ruta : string) (d : json) :
  credenciales_y_token env = true ->
  argv env = [script; ruta] ->
  states_endpoint env = Respuesta (Some d) ->
  Ingest.sin_states d = Ok false ->
  ejecutar (Ingest.main env) a =
    match llenar_tabla_en_sqlite d (reloj env) (crear_tabla_principal a) with
    | Ok (b', hecho) =>
        ({| traza := [ Abre_credenciales; Post_token; Get_states;
                       Imprime (Ingest.msg_database ++ ruta)%string;
                       Conecta ruta; Crea_tablas ] ++ hecho ++ [Cierra];
            archivo := Some b' |}, Termina)
    | Err e =>
        ({| traza := [ Abre_credenciales; Post_token; Get_states;
                       Imprime (Ingest.msg_database ++ ruta)%string;
                       Conecta ruta; Crea_tablas ];
            archivo := Some (crear_tabla_principal a) |}, Lanza e)
    end.
Proof.
  intros Hc Hav Hst Hss.
  destruct (credenciales_y_token_inv env Hc)
    as (c & r & id & s & tk & E0 & Et & E1 & E2 & E3 & T1 & T2 & T3).
  destruct env as [av cred tok st rel].
  cbn [argv credentials_json token_endpoint states_endpoint reloj] in *.
  subst av cred tok st.
  unfold ejecutar, Ingest.main, Ingest.obtener_credenciales_de_json,
    Ingest.obtener_token, Ingest.llamar_al_endpoint.
  cbn [argv credentials_json token_endpoint states_endpoint reloj].
  unfold luego at 1 2 3 4 5 6 7 8 9 10 11, hace at 1 2 3, propaga at 1 2 3,
    ret at 1 2 3 4 5.
  cbn [traza archivo app].
  rewrite E1, E2, E3. cbn [traza archivo app]. rewrite T1, T2, T3.
  cbn [negb orb traza archivo app]. rewrite Hss.
  cbn [List.length Nat.eqb negb nth].
  unfold luego, print, hace, propaga, ret, lee_archivo, escribe_archivo.
  cbn [traza archivo app].
  destruct (llenar_tabla_en_sqlite d rel (crear_tabla_principal a))
    as [[b' hecho]|e]; [|reflexivity].
  cbn [traza archivo].
  pose proof (hace_todos hecho
                {| traza := [ Abre_credenciales; Post_token; Get_states;
                              Imprime (Ingest.msg_database ++ ruta)%string;
                              Conecta ruta; Crea_tablas ];
                   archivo := Some b' |}) as Hh.
  unfold luego, hace, ret in Hh. rewrite Hh.
  cbn [traza archivo]. now rewrite <- app_assoc.
Qed.

Lemma registros_con_states d l :
  registros d = Some l -> Ingest.sin_states d = Ok false.
Proof.
  intros Hr. apply registros_Some in Hr.
  destruct d as [| | | | | |kv]; try discriminate Hr.
  unfold Ingest.sin_states. cbn in Hr |- *.
  destruct (buscar "states" kv) eqn:Eb; [|discriminate Hr].
  destruct kv; [discriminate Eb | reflexivity].
Qed.

(** X11. When the credentials, the token, the fetch and the argument are
    in order and the response holds a non-empty list of well-formed
    records, [main] runs to its end: it connects to the path of the
    argument, creates the tables if the file has none, commits once, closes,
    and leaves in the file what the loop over the records builds. *)
Theorem ingestion_lograda (env : entorno) (a : option base)
    (script ruta : string) (d : json) (l : list json) :
  credenciales_y_token env = true ->
  argv env = [script; ruta] ->
  states_endpoint env = Respuesta (Some d) ->
  registros d = Some l ->
  l <> [] ->
  forallb registro_valido l = true ->
  ejecutar (Ingest.main env) a =
    ({| traza := [ Abre_credenciales; Post_token; Get_states;
                   Imprime (Ingest.msg_database ++ ruta)%string;
                   Conecta ruta; Crea_tablas; Commit;
                   Imprime msg_tablas_llenadas; Cierra ];
        archivo := Some (corridas [(d, reloj env)] (crear_tabla_principal a)) |},
     Termina).
Proof.
  intros Hc Hav Hst Hr Hne V.
  rewrite (main_hasta_llenar env a script ruta d Hc Hav Hst
             (registros_con_states d l Hr)).
  cbn [corridas fold_left]. rewrite (corrida_valida d _ _ l Hr V).
  rewrite (llenar_valida d _ _ l Hr V).
  destruct l; [congruence | reflexivity].
Qed.

Lemma ingestion_lograda_witness :
  ejecutar
    (Ingest.main
       (entorno_ejemplo (solo_el_script ++ ["vuelos.sqlite"])
          (Respuesta (Some (fst (hd (JNull, 0) corridas_ejemplo))))))
    (Some base_conocida) =
    ({| traza := [ Abre_credenciales; Post_token; Get_states;
                   Imprime (Ingest.msg_database ++ "vuelos.sqlite")%string;
                   Conecta "vuelos.sqlite"; Crea_tablas; Commit;
                   Imprime msg_tablas_llenadas; Cierra ];
        archivo := Some (corridas [(fst (hd (JNull, 0) corridas_ejemplo), 1700000010)]
                           (crear_tabla_principal (Some base_conocida))) |},
     Termina).
Proof.
  apply (ingestion_lograda
           (entorno_ejemplo (solo_el_script ++ ["vuelos.sqlite"])
              (Respuesta (Some (fst (hd (JNull, 0) corridas_ejemplo)))))
           (Some base_conocida) "Airplanes_ingest_flight_snapshots.py"
           "vuelos.sqlite" (fst (hd (JNull, 0) corridas_ejemplo))
           [ avion_ejemplo "0d0a1b" "AMX001" "Mexico";
             avion_ejemplo "a1b2c3" "UAL12" "United States" ]);
    try reflexivity. discriminate.
Defined.

(** X12. A response that has the key "states" with an empty or null value
    passes the check of [main]: the database is opened and the tables are
    created, then the format-error line is printed, nothing is committed,
    the connection is closed and [main] ends normally. *)
Theorem states_vacio_crea_tablas (env : entorno) (a : option base)
    (script ruta : string) (d : list (string * json)) (st : json) :
  credenciales_y_token env = true ->
  argv env = [script; ruta] ->
  states_endpoint env = Respuesta (Some (JDict d)) ->
  buscar "states" d = Some st ->
  truthy st = false ->
  ejecutar (Ingest.main env) a =
    ({| traza := [ Abre_credenciales; Post_token; Get_states;
                   Imprime (Ingest.msg_database ++ ruta)%string;
                   Conecta ruta; Crea_tablas;
                   Imprime msg_error_formato; Cierra ];
        archivo := Some (crear_tabla_principal a) |},
     Termina).
Proof.
  intros Hc Hav Hst Hb Ht.
  assert (Ingest.sin_states (JDict d) = Ok false) as Hss.
  { unfold Ingest.sin_states. cbn. rewrite Hb.
    destruct d; [discriminate Hb | reflexivity]. }
  rewrite (main_hasta_llenar env a script ruta (JDict d) Hc Hav Hst Hss).
  unfold llenar_tabla_en_sqlite. cbn [clave]. rewrite Hb. cbn [bind].
  rewrite Ht. reflexivity.
Qed.

Lemma states_vacio_crea_tablas_witness :
  ejecutar
    (Ingest.main
       (entorno_ejemplo (solo_el_script ++ ["vuelos.sqlite"])
          (Respuesta (Some (JDict [("time", JInt 1700000005); ("states", JNull)])))))
    None =
    ({| traza := [ Abre_credenciales; Post_token; Get_states;
                   Imprime (Ingest.msg_database ++ "vuelos.sqlite")%string;
                   Conecta "vuelos.sqlite"; Crea_tablas;
                   Imprime msg_error_formato; Cierra ];
        archivo := Some (crear_tabla_principal None) |},
     Termina).
Proof.
  apply (states_vacio_crea_tablas
           (entorno_ejemplo (solo_el_script ++ ["vuelos.sqlite"])
              (Respuesta (Some (JDict [("time", JInt 1700000005);
                                       ("states", JNull)]))))
           None "Airplanes_ingest_flight_snapshots.py" "vuelos.sqlite"
           [("time", JInt 1700000005); ("states", JNull)] JNull);
    reflexivity.
Defined.

(** X13. When [llenar_tabla_en_sqlite] raises, [main] ends in that
    exception after the tables were created: the file holds the tables and
    the rows it had, nothing of the run is committed and the connection is
    not closed. *)
Theorem main_lanza_tras_crear_tablas (env : entorno) (a : option base)
    (script ruta : string) (d : json) (e : excepcion) :
  credenciales_y_token env = true ->
  argv env = [script; ruta] ->
  states_endpoint env = Respuesta (Some d) ->
  Ingest.sin_states d = Ok false ->
  llenar_tabla_en_sqlite d (reloj env) (crear_tabla_principal a) = Err e ->
  ejecutar (Ingest.main env) a =
    ({| traza := [ Abre_credenciales; Post_token; Get_states;
                   Imprime (Ingest.msg_database ++ ruta)%string;
                   Conecta ruta; Crea_tablas ];
        archivo := Some (crear_tabla_principal a) |},
     Lanza e).
Proof.
  intros Hc Hav Hst Hss He.
  rewrite (main_hasta_llenar env a script ruta d Hc Hav Hst Hss).
  now rewrite He.
Qed.

Lemma main_lanza_tras_crear_tablas_witness :
  ejecutar
    (Ingest.main
       (entorno_ejemplo (solo_el_script ++ ["vuelos.sqlite"])
          (Respuesta (Some (respuesta_ejemplo
             [ JList [JStr "0d0a2c"; JStr "VOI77"; JStr "Mexico"] ])))))
    None =
    ({| traza := [ Abre_credenciales; Post_token; Get_states;
                   Imprime (Ingest.msg_database ++ "vuelos.sqlite")%string;
                   Conecta "vuelos.sqlite"; Crea_tablas ];
        archivo := Some (crear_tabla_principal None) |},
     Lanza IndexError).
Proof.
  apply (main_lanza_tras_crear_tablas
           (entorno_ejemplo (solo_el_script ++ ["vuelos.sqlite"])
              (Respuesta (Some (respuesta_ejemplo
                 [ JList [JStr "0d0a2c"; JStr "VOI77"; JStr "Mexico"] ]))))
           None "Airplanes_ingest_flight_snapshots.py" "vuelos.sqlite"
           (respuesta_ejemplo [ JList [JStr "0d0a2c"; JStr "VOI77"; JStr "Mexico"] ])
           IndexError);
    reflexivity.
Defined.

(** * Further properties of the distance pass *)

Section Llaves.
Context {F : Type} {A : Aritmetica F}.

Lemma ultima_fila_app (id : option Z) (l : list (fila_trayectoria F))
    (a : fila_trayectoria F) :
  ultima_fila id (l ++ [a]) =
  if mismo_avion id (tr_Avion_fisico_id a) then Some a else ultima_fila id l.
Proof.
  unfold ultima_fila. rewrite rev_app_distr. reflexivity.
Qed.

Lemma fila_tras_pase_casos (l : list (fila_trayectoria F)) (r : fila_trayectoria F) :
  fila_tras_pase l r = r \/ exists d, fila_tras_pase l r = con_distancia d r.
Proof.
  unfold fila_tras_pase. destruct (ultima_fila _ _) as [a|]; [|now left].
  destruct (distancia_de_fila a) as [d|]; [right; now eexists | now left].
Qed.

Lemma fila_tras_pase_id (l : list (fila_trayectoria F)) (r : fila_trayectoria F) :
  tr_Avion_fisico_id (fila_tras_pase l r) = tr_Avion_fisico_id r.
Proof.
  destruct (fila_tras_pase_casos l r) as [->|[d ->]]; reflexivity.
Qed.

Lemma fila_tras_pase_distancia (l : list (fila_trayectoria F))
    (r : fila_trayectoria F) :
  distancia_de_fila (fila_tras_pase l r) = distancia_de_fila r.
Proof.
  destruct (fila_tras_pase_casos l r) as [->|[d ->]]; reflexivity.
Qed.

Lemma con_distancia_tras_pase (l : list (fila_trayectoria F))
    (r : fila_trayectoria F) (d : valor F) :
  con_distancia d (fila_tras_pase l r) = con_distancia d r.
Proof.
  destruct (fila_tras_pase_casos l r) as [->|[d' ->]]; reflexivity.
Qed.

Lemma pliegue_ultima (l : list (fila_trayectoria F)) :
  Forall (fun a => exists d, distancia_de_fila a = Ok d) l ->
  forall r, fold_left paso_fila l r = fila_tras_pase l r.
Proof.
  induction l as [|a l IH] using rev_ind; intros Hok r; [reflexivity|].
  apply Forall_app in Hok as [Hl Ha]. inversion Ha as [|? ? [d Hd] _]; subst.
  rewrite fold_left_app. cbn [fold_left]. rewrite (IH Hl).
  unfold paso_fila. rewrite Hd, fila_tras_pase_id, con_distancia_tras_pase.
  unfold fila_tras_pase at 2. rewrite ultima_fila_app.
  destruct (mismo_avion _ _); [now rewrite Hd | reflexivity].
Qed.

(** The pass on a table whose rows all have a distance. *)
Lemma calcular_computables (filas : list (fila_trayectoria F)) :
  Forall (fun a => exists d, distancia_de_fila a = Ok d) filas ->
  calcular_distancias_trayectorias (Some filas) =
  Ok (map (fila_tras_pase filas) filas,
      match filas with
      | [] => [Imprime msg_sin_trayectorias]
      | _ :: _ => [Commit; Imprime msg_columna_agregada]
      end).
Proof.
  intros Hok. unfold calcular_distancias_trayectorias.
  destruct filas as [|r0 rs] eqn:E; [reflexivity|]. rewrite <- E in *.
  rewrite (recorrer_trayectorias_filas _ Hok). cbn [bind].
  do 2 f_equal. apply map_ext. intros r. now apply pliegue_ultima.
Qed.


Lemma find_map_llave (id : option Z) (G : fila_trayectoria F -> fila_trayectoria F)
    (l : list (fila_trayectoria F)) :
  (forall r, tr_Avion_fisico_id (G r) = tr_Avion_fisico_id r) ->
  find (fun a => mismo_avion id (tr_Avion_fisico_id a)) (map G l) =
  option_map G (find (fun a => mismo_avion id (tr_Avion_fisico_id a)) l).
Proof.
  intros HG. induction l as [|x l IH]; [reflexivity|].
  cbn [map find]. rewrite HG. destruct (mismo_avion _ _); [reflexivity | exact IH].
Qed.

Lemma fila_tras_pase_fijo (l : list (fila_trayectoria F)) (r : fila_trayectoria F) :
  fila_tras_pase (map (fila_tras_pase l) l) (fila_tras_pase l r) =
  fila_tras_pase l r.
Proof.
  unfold fila_tras_pase at 1. unfold ultima_fila.
  rewrite fila_tras_pase_id, <- map_rev.
  rewrite (find_map_llave _ (fila_tras_pase l) (rev l) (fila_tras_pase_id l)).
  fold (ultima_fila (tr_Avion_fisico_id r) l).
  destruct (ultima_fila (tr_Avion_fisico_id r) l) as [a|] eqn:Eu;
    cbn [option_map]; [|reflexivity].
  rewrite fila_tras_pase_distancia.
  destruct (distancia_de_fila a) as [d|] eqn:Ed; [|reflexivity].
  rewrite con_distancia_tras_pase. unfold fila_tras_pase. now rewrite Eu, Ed.
Qed.

(** X15. The pass is idempotent: on a table whose rows all have a
    distance, a second pass over the table that the first pass left returns
    the same table and prints the same. *)
Theorem pase_idempotente (filas t' : list (fila_trayectoria F))
    (hecho : list evento) :
  Forall (fun a => exists d, distancia_de_fila a = Ok d) filas ->
  calcular_distancias_trayectorias (Some filas) = Ok (t', hecho) ->
  calcular_distancias_trayectorias (Some t') = Ok (t', hecho).
Proof.
  intros Hok H. rewrite (calcular_computables filas Hok) in H.
  injection H as <- <-.
  assert (Forall (fun a => exists d, distancia_de_fila a = Ok d)
            (map (fila_tras_pase filas) filas)) as Hok'.
  { apply Forall_map. eapply Forall_impl; [|exact Hok].
    cbn. intros r [d Hd]. exists d. now rewrite fila_tras_pase_distancia. }
  rewrite (calcular_computables _ Hok'). f_equal. f_equal.
  - rewrite map_map. apply map_ext. intros r. apply fila_tras_pase_fijo.
  - now destruct filas.
Qed.

(** X16. With one argument, [main] of the distance job on a table whose
    rows all have a distance connects to the path of the argument, runs the
    pass, commits once unless the table is empty, closes, and ends
    normally. *)
Theorem pase_logrado (script ruta : string) (filas : list (fila_trayectoria F)) :
  Forall (fun a => exists d, distancia_de_fila a = Ok d) filas ->
  ejecutar (Compute.main [script; ruta]) (Some filas) =
    ({| traza :=
          [ Imprime (Compute.msg_database ++ ruta)%string; Conecta ruta ] ++
          match filas with
          | [] => [Imprime msg_sin_trayectorias]
          | _ :: _ => [Commit; Imprime msg_columna_agregada]
          end ++ [Cierra];
        archivo := Some (map (fila_tras_pase filas) filas) |},
     Termina).
Proof.
  intros Hok. unfold ejecutar, Compute.main.
  cbn [List.length Nat.eqb negb nth].
  unfold luego, print, hace, propaga, ret, lee_archivo, escribe_archivo.
  cbn [traza archivo app].
  rewrite (calcular_computables filas Hok).
  destruct filas; reflexivity.
Qed.

Lemma recorrer_trayectorias_falla (l1 l2 : list (fila_trayectoria F))
    (r : fila_trayectoria F) (e : excepcion) :
  Forall (fun a => exists d, distancia_de_fila a = Ok d) l1 ->
  distancia_de_fila r = Err e ->
  forall t, recorrer_trayectorias (l1 ++ r :: l2) t = Err e.
Proof.
  induction 1 as [|a l1 [d Hd] _ IH]; intros He t; cbn [app recorrer_trayectorias].
  - now rewrite He.
  - rewrite Hd. cbn [bind]. now apply IH.
Qed.

Lemma coordenada_no_numerica (r : fila_trayectoria F) :
  coordenadas_numericas r = false -> distancia_de_fila r = Err TypeError.
Proof.
  unfold coordenadas_numericas, distancia_de_fila, radians, numerica.
  destruct (tr_lat_inicio r); cbn; try reflexivity;
    destruct (tr_lon_inicio r); cbn; try reflexivity;
    destruct (tr_lat_fin r); cbn; try reflexivity;
    destruct (tr_lon_fin r); cbn; try reflexivity; discriminate.
Qed.

(** X17. A row with a coordinate that is NULL or a text makes the pass
    raise TypeError before [commit()], also when the rows before it were
    updated: no distance is written. *)
Theorem coordenada_nula_lanza (l1 l2 : list (fila_trayectoria F))
    (r : fila_trayectoria F) :
  Forall (fun a => exists d, distancia_de_fila a = Ok d) l1 ->
  coordenadas_numericas r = false ->
  calcular_distancias_trayectorias (Some (l1 ++ r :: l2)) = Err TypeError.
Proof.
  intros Hok Hn. unfold calcular_distancias_trayectorias.
  destruct (l1 ++ r :: l2) as [|x xs] eqn:E; [now destruct l1|].
  rewrite <- E.
  rewrite (recorrer_trayectorias_falla l1 l2 r TypeError Hok
             (coordenada_no_numerica r Hn)).
  reflexivity.
Qed.

End Llaves.


Lemma tabla_ejemplo_computable :
  Forall (fun a => exists d,
            distancia_de_fila (A := aritmetica_doble plataforma_tabla) a = Ok d)
         tabla_ejemplo.
Proof. repeat constructor; eexists; vm_compute; reflexivity. Qed.


Lemma pase_idempotente_witness :
  calcular_distancias_trayectorias (A := aritmetica_doble plataforma_tabla)
    (Some [ con_distancia (VReal 0x1.38bc5c28f5c29p+14%float)
              (fila_doble (Some 1) 0 0 0 180);
            con_distancia (VReal 0%float) (fila_doble (Some 2) 0 0 0 0) ]) =
  Ok ([ con_distancia (VReal 0x1.38bc5c28f5c29p+14%float)
          (fila_doble (Some 1) 0 0 0 180);
        con_distancia (VReal 0%float) (fila_doble (Some 2) 0 0 0 0) ],
      [Commit; Imprime msg_columna_agregada]).
Proof.
  exact (pase_idempotente (A := aritmetica_doble plataforma_tabla)
           tabla_ejemplo _ _ tabla_ejemplo_computable tabla_ejemplo_calculada).
Defined.

Lemma pase_logrado_witness :
  ejecutar
    (Compute.main (A := aritmetica_doble plataforma_tabla)
       ["Airplanes_compute_flight_snapshots.py"; "vuelos.sqlite"])
    (Some tabla_ejemplo) =
    ({| traza := [ Imprime "Estas usando la database: vuelos.sqlite";
                   Conecta "vuelos.sqlite"; Commit;
                   Imprime msg_columna_agregada; Cierra ];
        archivo :=
          Some [ con_distancia (VReal 0x1.38bc5c28f5c29p+14%float)
                   (fila_doble (Some 1) 0 0 0 180);
                 con_distancia (VReal 0%float) (fila_doble (Some 2) 0 0 0 0) ] |},
     Termina).
Proof.
  rewrite (pase_logrado (A := aritmetica_doble plataforma_tabla)
             "Airplanes_compute_flight_snapshots.py" "vuelos.sqlite"
             tabla_ejemplo tabla_ejemplo_computable).
  reflexivity.
Defined.

Lemma coordenada_nula_lanza_witness :
  coordenadas_numericas fila_sin_fin = false /\
  calcular_distancias_trayectorias (A := aritmetica_doble plataforma_tabla)
    (Some (tabla_ejemplo ++ [fila_sin_fin])) = Err TypeError.
Proof.
  split; [reflexivity|].
  exact (coordenada_nula_lanza (A := aritmetica_doble plataforma_tabla)
           tabla_ejemplo [] fila_sin_fin tabla_ejemplo_computable eq_refl).
Defined.

